(** * Resource booking backend (Backers/index.js): model and properties

    The Express handlers of [Backers/index.js] are embedded as functions
    from a request and a store to a response and a store.  The SQL
    statements the handlers send through [pool.query] / [client.query]
    are given their relational meaning over two tables kept as lists of
    rows; statements run in a small state-and-exception monad that also
    records which statements were sent.

    Scope of the model.
    - JSON bodies are objects whose values are scalars ([json]); JSON
      numbers are integers, of a size JavaScript holds exactly and
      prints in plain decimal.  Strings are compared and case-converted
      bytewise (ASCII).
    - What JavaScript and PostgreSQL make of a *string* where a number or
      a date is expected ([Number(s)], [new Date(s)], the integer input
      routine) is not fixed here: these three readers are the fields of
      a [runtime] the whole development is parameterised by.
    - Integers and instants are unbounded [Z]; the tables carry the
      columns the handlers name.  The schema itself (db.js) is not part
      of the sources at hand; what is taken from it is stated where used.
    - Login, logout and password change are not modelled. *)

From stdpp Require Import base strings gmap list pretty.
From Stdlib Require Import ZArith Ascii.

Local Open Scope string_scope.
Local Open Scope Z_scope.

(** ** JavaScript values *)

Inductive json : Type :=
  | JNull
  | JBool (b : bool)
  | JNum (n : Z)
  | JStr (s : string).

Global Instance json_eq_dec : EqDecision json.
Proof. solve_decision. Defined.

(** A property read out of an object: [None] is [undefined]. *)
Abbreviation jsvalue := (option json).

(** A JavaScript number as far as the handlers can tell numbers apart:
    an integer, or something else (NaN, an infinity, a fraction), of
    which only the outcome of [x < 0] matters. *)
Inductive jsnum : Type :=
  | NInt (z : Z)
  | NOther (negative : bool).

Record runtime : Type := {
  (** [Number(s)] for a string [s] *)
  Number_str : string → jsnum;
  (** [new Date(s).getTime()] for a string [s]; [None] is Invalid Date *)
  Date_parse : string → option Z;
  (** PostgreSQL's reading of the text [s] as an [integer] parameter *)
  pg_int4in : string → option Z
}.

(** Truthiness, as tested by [!x] and [x || y]. *)
Definition truthy (v : jsvalue) : bool :=
  match v with
  | None | Some JNull => false
  | Some (JBool b) => b
  | Some (JNum n) => bool_decide (n ≠ 0)
  | Some (JStr s) => bool_decide (s ≠ "")
  end.

(** [String(v)] *)
Definition ToString (v : jsvalue) : string :=
  match v with
  | None => "undefined"
  | Some JNull => "null"
  | Some (JBool true) => "true"
  | Some (JBool false) => "false"
  | Some (JNum n) => pretty n
  | Some (JStr s) => s
  end.

Definition upper_ascii (c : ascii) : ascii :=
  let n := nat_of_ascii c in
  if ((97 <=? n) && (n <=? 122))%nat then ascii_of_nat (n - 32) else c.

Definition lower_ascii (c : ascii) : ascii :=
  let n := nat_of_ascii c in
  if ((65 <=? n) && (n <=? 90))%nat then ascii_of_nat (n + 32) else c.

Fixpoint string_map (f : ascii → ascii) (s : string) : string :=
  match s with
  | EmptyString => EmptyString
  | String c s' => String (f c) (string_map f s')
  end.

Definition toUpperCase : string → string := string_map upper_ascii.
Definition toLowerCase : string → string := string_map lower_ascii.

(** White space removed by [trim]: TAB, LF, VT, FF, CR and space. *)
Definition is_js_space (c : ascii) : bool :=
  let n := nat_of_ascii c in
  (((9 <=? n) && (n <=? 13)) || (n =? 32))%nat.

Fixpoint trimStart (s : string) : string :=
  match s with
  | String c s' => if is_js_space c then trimStart s' else s
  | EmptyString => EmptyString
  end.

Fixpoint trimEnd (s : string) : string :=
  match s with
  | EmptyString => EmptyString
  | String c s' =>
      match trimEnd s' with
      | EmptyString => if is_js_space c then EmptyString else String c EmptyString
      | t => String c t
      end
  end.

Definition trim (s : string) : string := trimEnd (trimStart s).

(** Errors PostgreSQL reports to the driver, by SQLSTATE. *)
Inductive pgerror : Type :=
  | unique_violation              (* 23505 *)
  | not_null_violation            (* 23502 *)
  | check_violation               (* 23514 *)
  | invalid_text_representation.  (* 22P02 *)

Global Instance pgerror_eq_dec : EqDecision pgerror.
Proof. solve_decision. Defined.

(** ** Tables *)

Inductive resource_status : Type := Available | Maintenance | Inactive.
Inductive booking_status : Type := REQUEST | ONGOING | SUCCESS | CANCEL.

Global Instance resource_status_eq_dec : EqDecision resource_status.
Proof. solve_decision. Defined.
Global Instance booking_status_eq_dec : EqDecision booking_status.
Proof. solve_decision. Defined.

(** [['Available', 'Maintenance', 'Inactive'].includes(v)], with the
    status it names. *)
Definition status_of_json (v : jsvalue) : option resource_status :=
  match v with
  | Some (JStr s) =>
      if bool_decide (s = "Available") then Some Available
      else if bool_decide (s = "Maintenance") then Some Maintenance
      else if bool_decide (s = "Inactive") then Some Inactive
      else None
  | _ => None
  end.

(** [status IN ('REQUEST','ONGOING')] and [status IN ('SUCCESS','CANCEL')] *)
Definition active (s : booking_status) : bool :=
  match s with REQUEST | ONGOING => true | SUCCESS | CANCEL => false end.
Definition terminal (s : booking_status) : bool :=
  match s with SUCCESS | CANCEL => true | REQUEST | ONGOING => false end.

(** Modelled from the spec: the column types of the two tables, declared
    in db.js, which is not among the sources.  The columns are those the
    handlers' statements name; identifiers, quantities and
    [resource_id] are integers, instants are milliseconds since the
    epoch, the two status columns hold the values the spec enumerates.

    A row of [resources].  [r_updated_at] is [None] until a handler
    writes the column. *)
Record resource : Type := mkResource {
  r_id : Z;
  r_kind : string;
  r_name : string;
  r_subcategory : option string;
  r_type : option string;
  r_quantity : option Z;
  r_status : resource_status;
  r_updated_at : option Z
}.

(** A row of [bookings]. *)
Record booking : Type := mkBooking {
  b_id : Z;
  b_kind : string;
  b_resource_id : Z;
  b_resource_name : string;
  b_start_dt : Z;
  b_end_dt : Z;
  b_quantity : option Z;
  b_status : booking_status;
  b_requester_name : option string;
  b_requester_role : option string;
  b_purpose : option string;
  b_created_at : Z;
  b_updated_at : Z;
  b_started_at : option Z;
  b_ended_at : option Z;
  b_canceled_at : option Z
}.

Global Instance resource_eq_dec : EqDecision resource.
Proof. solve_decision. Defined.
Global Instance booking_eq_dec : EqDecision booking.
Proof. solve_decision. Defined.

(** The database: the two tables and the next value of each table's
    identifier sequence. *)
Record DB : Type := mkDB {
  resources : list resource;
  bookings : list booking;
  resources_id_seq : Z;
  bookings_id_seq : Z
}.

Definition set_resources (l : list resource) (d : DB) : DB :=
  mkDB l (bookings d) (resources_id_seq d) (bookings_id_seq d).
Definition set_bookings (l : list booking) (d : DB) : DB :=
  mkDB (resources d) l (resources_id_seq d) (bookings_id_seq d).

(** ** Statements sent to the database *)

Inductive statement : Type :=
  | BEGIN | COMMIT | ROLLBACK
  | SELECT_resources | INSERT_resources | UPDATE_resources | DELETE_resources
  | SELECT_bookings | INSERT_bookings | UPDATE_bookings | DELETE_bookings.

Global Instance statement_eq_dec : EqDecision statement.
Proof. solve_decision. Defined.

(** The connection: the current contents, the contents saved by an open
    transaction, and the statements sent so far (oldest first). *)
Record conn : Type := mkConn {
  store : DB;
  saved : option DB;
  sent : list statement
}.

(** A database computation either returns or throws. *)
Definition M (A : Type) : Type := conn → (pgerror + A) * conn.

Global Instance M_ret : MRet M := λ A a c, (inr a, c).
Global Instance M_bind : MBind M := λ A B f m c,
  match m c with
  | (inr a, c') => f a c'
  | (inl e, c') => (inl e, c')
  end.

(** [try { m } catch (e) { h e }] *)
Definition try_catch {A} (m : M A) (h : pgerror → M A) : M A := λ c,
  match m c with
  | (inr a, c') => (inr a, c')
  | (inl e, c') => h e c'
  end.

(** One statement: it is recorded as sent; if it fails the contents are
    as before the statement. *)
Definition query {A} (st : statement) (q : DB → pgerror + A * DB) : M A := λ c,
  let c' := mkConn (store c) (saved c) (sent c ++ [st]) in
  match q (store c) with
  | inr (a, d) => (inr a, mkConn d (saved c) (sent c ++ [st]))
  | inl e => (inl e, c')
  end.

Definition begin_ : M unit := λ c,
  (inr (), mkConn (store c) (Some (store c)) (sent c ++ [BEGIN])).
Definition commit : M unit := λ c,
  (inr (), mkConn (store c) None (sent c ++ [COMMIT])).
Definition rollback : M unit := λ c,
  (inr (), mkConn (default (store c) (saved c)) None (sent c ++ [ROLLBACK])).

(** ** Requests and responses *)

Inductive payload : Type :=
  | Empty                                   (* .end() *)
  | Error (error : string)                  (* { error } *)
  | ErrorMessage (error message : string)   (* { error, message } *)
  | ResourceRow (r : resource)
  | BookingRow (b : booking)
  | ResourceRows (l : list resource)
  | BookingRows (l : list booking).

Record response : Type := respond { status : Z; body : payload }.

(** [req.session.user], when there is one. *)
Record user : Type := mkUser { user_id : Z; username : string; role : string }.

(** A connection on which nothing has been sent yet. *)
Definition connect (d : DB) : conn := mkConn d None [].

(** ** Conversions that depend on the runtime *)

Section Runtime.
Context (js : runtime).

(** [Number(v)] *)
Definition ToNumber (v : jsvalue) : jsnum :=
  match v with
  | None => NOther false
  | Some JNull => NInt 0
  | Some (JBool b) => NInt (if b then 1 else 0)
  | Some (JNum n) => NInt n
  | Some (JStr s) => Number_str js s
  end.

(** [v < 0] *)
Definition lt_zero (v : jsvalue) : bool :=
  match ToNumber v with
  | NInt z => bool_decide (z < 0)%Z
  | NOther negative => negative
  end.

(** [new Date(v)], as its time value in milliseconds; [None] is Invalid
    Date.  A number beyond 8.64e15 ms gives an invalid date. *)
Definition new_Date (v : jsvalue) : option Z :=
  match v with
  | None => None
  | Some (JStr s) => Date_parse js s
  | Some w =>
      match ToNumber (Some w) with
      | NInt t => if bool_decide (-8640000000000000 ≤ t ≤ 8640000000000000)%Z
                  then Some t else None
      | NOther _ => None
      end
  end.

(** ** Parameters as node-postgres and PostgreSQL read them *)

(** A text parameter: [null] and [undefined] are NULL, anything else is
    sent as its string form. *)
Definition pg_text (v : jsvalue) : option string :=
  match v with
  | None | Some JNull => None
  | Some w => Some (ToString (Some w))
  end.

(** An integer parameter, from a body value. *)
Definition pg_int (v : jsvalue) : pgerror + option Z :=
  match v with
  | None | Some JNull => inr None
  | Some (JNum n) => inr (Some n)
  | Some (JStr s) =>
      match pg_int4in js s with
      | Some n => inr (Some n)
      | None => inl invalid_text_representation
      end
  | Some (JBool _) => inl invalid_text_representation
  end.

(** An integer parameter, from a JavaScript number. *)
Definition pg_int_of_num (x : jsnum) : pgerror + Z :=
  match x with
  | NInt z => inr z
  | NOther _ => inl invalid_text_representation
  end.

(** ** Auth guard *)

(** [requireAuth(roles)] in front of the handler [next]. *)
Definition requireAuth (roles : list string) (session : option user)
    (next : M response) : M response :=
  match session with
  | None => mret (respond 401 (Error "Unauthorized: Please login"))
  | Some u =>
      if bool_decide (role u ∈ roles) then next
      else mret (respond 403 (Error "Forbidden: Insufficient permissions"))
  end.

Definition ADMIN_STAFF : list string := ["ADMIN"; "STAFF"].

(** ** Resources *)

(** [SELECT * FROM resources [WHERE kind = $1]].  The ORDER BY clause is
    not modelled: rows are listed in table order. *)
Definition select_resources (kind : option string) : M (list resource) :=
  query SELECT_resources (λ d,
    inr (match kind with
         | Some k => filter (λ r, r_kind r = k) (resources d)
         | None => resources d
         end, d)).

(** [GET /api/resources] *)
Definition get_resources (kind : option string) : M response :=
  try_catch
    (rows ← select_resources
       (if truthy (JStr <$> kind) then Some (toUpperCase (ToString (JStr <$> kind)))
        else None);
     mret (respond 200 (ResourceRows rows)))
    (λ _, mret (respond 500 (Error "Server error"))).

Definition same_kind_name (kind name : string) (r : resource) : bool :=
  bool_decide (r_kind r = kind) && bool_decide (r_name r = name).

(** Modelled from the spec: the constraints of [resources], declared in
    db.js, which is not among the sources.  From the spec (name unique
    within kind) and the handler's answer to SQLSTATE 23505, the table
    has a uniqueness constraint on (kind, name); [name] is taken to be
    NOT NULL, the other value columns nullable, and [id] drawn from a
    sequence.

    The statement is [INSERT INTO resources (kind, name, subcategory,
    type, quantity, status) VALUES ($1,$2,$3,$4,$5,$6) RETURNING ...]. *)
Definition insert_resource (kind : string)
    (name subcategory type_ quantity : jsvalue)
    (status : resource_status) : M resource :=
  query INSERT_resources (λ d,
    match pg_int quantity with
    | inl e => inl e
    | inr q =>
        match pg_text name with
        | None => inl not_null_violation
        | Some n =>
            if existsb (same_kind_name kind n) (resources d)
            then inl unique_violation
            else
              let row := mkResource (resources_id_seq d) kind n
                           (pg_text subcategory) (pg_text type_) q status None in
              inr (row, mkDB (resources d ++ [row]) (bookings d)
                             (resources_id_seq d + 1) (bookings_id_seq d))
        end
    end).

(** [quantity = 1] and [status = 'Available'] in the destructuring of
    the body of [POST /api/resources]. *)
Definition quantity_or_default (req_body : gmap string json) : jsvalue :=
  Some (default (JNum 1) (req_body !! "quantity")).
Definition status_or_default (req_body : gmap string json) : jsvalue :=
  Some (default (JStr "Available") (req_body !! "status")).

(** [POST /api/resources], behind [requireAuth(['ADMIN','STAFF'])] *)
Definition post_resources (req_body : gmap string json) : M response :=
  try_catch
    (let kind := req_body !! "kind" in
     let name := req_body !! "name" in
     let subcategory := req_body !! "subcategory" in
     let type_ := req_body !! "type" in
     let quantity := quantity_or_default req_body in
     let status := status_or_default req_body in
     if negb (truthy kind) || negb (truthy name)
     then mret (respond 400 (Error "kind and name are required"))
     else if lt_zero quantity
     then mret (respond 400 (Error "quantity must be >= 0"))
     else match status_of_json status with
          | None => mret (respond 400 (Error "invalid status"))
          | Some st =>
              row ← insert_resource (toUpperCase (ToString kind))
                      name subcategory type_ quantity st;
              mret (respond 201 (ResourceRow row))
          end)
    (λ e, if bool_decide (e = unique_violation)
          then mret (respond 409 (Error "Duplicate resource name for this kind"))
          else mret (respond 500 (Error "Server error"))).

Definition allowed : list string :=
  ["name"; "subcategory"; "type"; "quantity"; "status"].

(** [input]: the entries of the body whose key is on the allow-list
    ([Object.fromEntries(Object.entries(req.body || {}).filter(([k]) =>
    allowed.includes(k)))]). *)
Definition patch_input (req_body : gmap string json) : gmap string json :=
  filter (λ kv, kv.1 ∈ allowed) req_body.

(** The SET list built from [Object.entries(input)], applied to one row,
    followed by [updated_at = NOW()].  A column is assigned when its
    name is a key of [input]. *)
Definition set_columns (input : gmap string json) (now : Z) (r : resource)
    : pgerror + resource :=
  match
    match input !! "name" with
    | None => inr (r_name r)
    | Some v => match pg_text (Some v) with
                | Some s => inr s
                | None => inl not_null_violation
                end
    end
  with
  | inl e => inl e
  | inr name =>
      match
        match input !! "status" with
        | None => inr (r_status r)
        | Some v => match status_of_json (Some v) with
                    | Some s => inr s
                    | None => inl check_violation
                    end
        end
      with
      | inl e => inl e
      | inr status =>
          match
            match input !! "quantity" with
            | None => inr (r_quantity r)
            | Some v => pg_int (Some v)
            end
          with
          | inl e => inl e
          | inr quantity =>
              inr (mkResource (r_id r) (r_kind r) name
                     (match input !! "subcategory" with
                      | None => r_subcategory r
                      | Some v => pg_text (Some v)
                      end)
                     (match input !! "type" with
                      | None => r_type r
                      | Some v => pg_text (Some v)
                      end)
                     quantity status (Some now))
          end
      end
  end.

(** The rows [WHERE id = $i], rewritten in place. *)
Fixpoint update_where_id (f : resource → pgerror + resource) (id : Z)
    (l : list resource) : pgerror + list resource :=
  match l with
  | [] => inr []
  | r :: l' =>
      match (if bool_decide (r_id r = id) then f r else inr r) with
      | inl e => inl e
      | inr r' =>
          match update_where_id f id l' with
          | inl e => inl e
          | inr l'' => inr (r' :: l'')
          end
      end
  end.

(** Some row with the given [id] shares (kind, name) with a row of
    another id. *)
Definition duplicates (id : Z) (l : list resource) : bool :=
  existsb (λ r, bool_decide (r_id r = id) &&
     existsb (λ o, bool_decide (r_id o ≠ id) &&
                   same_kind_name (r_kind r) (r_name r) o) l) l.

(** [UPDATE resources SET ..., updated_at = NOW() WHERE id = $i
    RETURNING ...].  Parameters are read before any row is looked at. *)
Definition update_resource (input : gmap string json) (now id : Z)
    : M (list resource) :=
  query UPDATE_resources (λ d,
    match
      match input !! "quantity" with
      | None => inr None
      | Some v => pg_int (Some v)
      end
    with
    | inl e => inl e
    | inr _ =>
        match update_where_id (set_columns input now) id (resources d) with
        | inl e => inl e
        | inr l =>
            if duplicates id l then inl unique_violation
            else inr (filter (λ r, r_id r = id) l, set_resources l d)
        end
    end).

(** [PATCH /api/resources/:id], behind [requireAuth(['ADMIN','STAFF'])];
    [id] is [Number(req.params.id)]. *)
Definition patch_resource (id : jsnum) (req_body : gmap string json)
    (now : Z) : M response :=
  try_catch
    (match id with
     | NOther _ => mret (respond 400 (Error "invalid id"))
     | NInt id =>
         let input := patch_input req_body in
         if bool_decide (size input = 0%nat)
         then mret (respond 400 (Error "no fields to update"))
         else if bool_decide (is_Some (input !! "quantity"))
                 && lt_zero (input !! "quantity")
         then mret (respond 400 (Error "quantity must be >= 0"))
         else if bool_decide (is_Some (input !! "status"))
                 && negb (bool_decide (is_Some (status_of_json (input !! "status"))))
         then mret (respond 400 (Error "invalid status"))
         else
           rows ← update_resource input now id;
           match rows with
           | [] => mret (respond 404 (Error "not found"))
           | row :: _ => mret (respond 200 (ResourceRow row))
           end
     end)
    (λ e, if bool_decide (e = unique_violation)
          then mret (respond 409 (Error "Duplicate resource name for this kind"))
          else mret (respond 500 (Error "Server error"))).

(** [SET status = 'Inactive', updated_at = NOW()] on the rows
    [WHERE id = $1]. *)
Definition deactivated (now id : Z) (r : resource) : resource :=
  if bool_decide (r_id r = id)
  then mkResource (r_id r) (r_kind r) (r_name r) (r_subcategory r) (r_type r)
         (r_quantity r) Inactive (Some now)
  else r.

(** [UPDATE resources SET status = 'Inactive', updated_at = NOW()
    WHERE id = $1]; the result is [rowCount]. *)
Definition deactivate_resource (now id : Z) : M nat :=
  query UPDATE_resources (λ d,
    inr (length (filter (λ r, r_id r = id) (resources d)),
         set_resources (map (deactivated now id) (resources d)) d)).

(** [SELECT 1 FROM bookings WHERE resource_id = $1 AND status IN
    ('REQUEST','ONGOING') LIMIT 1]; the result is [rowCount]. *)
Definition select_active_bookings (id : Z) : M nat :=
  query SELECT_bookings (λ d,
    inr (if existsb (λ b, bool_decide (b_resource_id b = id) && active (b_status b))
              (bookings d)
         then 1%nat else 0%nat, d)).

(** [DELETE FROM bookings WHERE resource_id = $1 AND status IN
    ('SUCCESS','CANCEL')] *)
Definition delete_terminal_bookings (id : Z) : M unit :=
  query DELETE_bookings (λ d,
    inr ((), set_bookings
               (filter (λ b, ¬ (b_resource_id b = id ∧ terminal (b_status b) = true))
                       (bookings d)) d)).

(** [DELETE FROM resources WHERE id = $1]; the result is [rowCount]. *)
Definition delete_resource_row (id : Z) : M nat :=
  query DELETE_resources (λ d,
    inr (length (filter (λ r, r_id r = id) (resources d)),
         set_resources (filter (λ r, r_id r ≠ id) (resources d)) d)).

(** [a || b] on query-string values ([None] is [undefined]). *)
Definition or_else (a b : option string) : option string :=
  if truthy (JStr <$> a) then a else b.

(** [hardQ] and [isHard] of the delete handler:
    [String(req.query.hard || req.query.mode || '').toLowerCase().trim()]
    is one of '1', 'true', 'hard'. *)
Definition isHard (hard mode : option string) : bool :=
  let hardQ :=
    trim (toLowerCase (ToString (JStr <$> or_else (or_else hard mode) (Some "")))) in
  bool_decide (hardQ = "1") || bool_decide (hardQ = "true")
  || bool_decide (hardQ = "hard").

(** [DELETE /api/resources/:id], behind [requireAuth(['ADMIN','STAFF'])];
    [id] is [Number(req.params.id)], [hard] and [mode] are
    [req.query.hard] and [req.query.mode]. *)
Definition delete_resource (id : jsnum) (hard mode : option string)
    (now : Z) : M response :=
  try_catch
    (match id with
     | NOther _ => mret (respond 400 (Error "invalid id"))
     | NInt id =>
         if negb (isHard hard mode) then
           rowCount ← deactivate_resource now id;
           if bool_decide (rowCount = 0%nat)
           then mret (respond 404 (Error "not found"))
           else mret (respond 204 Empty)
         else
           begin_;;
           active_rowCount ← select_active_bookings id;
           if bool_decide (0 < active_rowCount)%nat then
             rollback;;
             mret (respond 409 (ErrorMessage "in_use"
               "Cannot delete: there are active bookings (REQUEST/ONGOING) for this resource."))
           else
             delete_terminal_bookings id;;
             del_rowCount ← delete_resource_row id;
             if bool_decide (del_rowCount = 0%nat) then
               rollback;;
               mret (respond 404 (Error "not found"))
             else
               commit;;
               mret (respond 204 Empty)
     end)
    (λ _, try_catch rollback (λ _, mret ());;
          mret (respond 500 (Error "Server error"))).

(** ** Bookings *)

(** [SELECT * FROM bookings]; the ORDER BY clause is not modelled. *)
Definition select_bookings : M (list booking) :=
  query SELECT_bookings (λ d, inr (bookings d, d)).

(** [GET /api/bookings] *)
Definition get_bookings : M response :=
  try_catch
    (rows ← select_bookings; mret (respond 200 (BookingRows rows)))
    (λ _, mret (respond 500 (Error "Server error"))).

(** [NOT ($4 <= start_dt OR $3 >= end_dt)] with [$3 = start], [$4 = end] *)
Definition overlaps (start end_ : Z) (b : booking) : bool :=
  negb (bool_decide (end_ ≤ b_start_dt b)%Z || bool_decide (b_end_dt b ≤ start)%Z).

(** The WHERE clause of the conflict query. *)
Definition conflicts_with (kind : string) (resource_id start end_ : Z)
    (b : booking) : bool :=
  bool_decide (b_kind b = kind) && bool_decide (b_resource_id b = resource_id)
  && active (b_status b) && overlaps start end_ b.

(** [SELECT 1 FROM bookings WHERE kind = $1 AND resource_id = $2 AND
    status IN ('REQUEST','ONGOING') AND NOT ($4 <= start_dt OR $3 >=
    end_dt) LIMIT 1]; the result is [rowCount].  The column
    [resource_id] holds integers. *)
Definition select_conflict (kind : string) (resource_id : jsnum)
    (start end_ : Z) : M nat :=
  query SELECT_bookings (λ d,
    match pg_int_of_num resource_id with
    | inl e => inl e
    | inr rid =>
        inr (if existsb (conflicts_with kind rid start end_) (bookings d)
             then 1%nat else 0%nat, d)
    end).

(** [x || null] as a parameter *)
Definition or_null (x : jsvalue) : jsvalue := if truthy x then x else Some JNull.

(** [INSERT INTO bookings (kind, resource_id, resource_name, start_dt,
    end_dt, quantity, status, requester_name, requester_role, purpose,
    created_at, updated_at) VALUES ($1,...,$6,'REQUEST',$7,$8,$9,NOW(),
    NOW()) RETURNING *].  The columns the statement leaves out
    ([started_at], [ended_at], [canceled_at]) are NULL; [id] comes from
    the table's sequence; [resource_name] is taken to be NOT NULL. *)
Definition insert_booking (kind : string) (resource_id : jsnum)
    (resource_name : jsvalue) (start end_ : Z)
    (quantity requester_name requester_role purpose : jsvalue) (now : Z)
    : M booking :=
  query INSERT_bookings (λ d,
    match pg_int_of_num resource_id with
    | inl e => inl e
    | inr rid =>
        match pg_int quantity with
        | inl e => inl e
        | inr q =>
            match pg_text resource_name with
            | None => inl not_null_violation
            | Some rname =>
                let row := mkBooking (bookings_id_seq d) kind rid rname start end_
                             q REQUEST (pg_text requester_name)
                             (pg_text requester_role) (pg_text purpose)
                             now now None None None in
                inr (row, mkDB (resources d) (bookings d ++ [row])
                               (resources_id_seq d) (bookings_id_seq d + 1))
            end
        end
    end).

(** [POST /api/bookings] (registered without a guard) *)
Definition post_bookings (req_body : gmap string json) (now : Z) : M response :=
  try_catch
    (let kind := req_body !! "kind" in
     let resource_id := req_body !! "resource_id" in
     let resource_name := req_body !! "resource_name" in
     let start_dt := req_body !! "start_dt" in
     let end_dt := req_body !! "end_dt" in
     let quantity := req_body !! "quantity" in
     let requester_name := req_body !! "requester_name" in
     let requester_role := req_body !! "requester_role" in
     let purpose := req_body !! "purpose" in
     if negb (truthy kind) || negb (truthy resource_id)
        || negb (truthy resource_name) || negb (truthy start_dt)
        || negb (truthy end_dt)
     then mret (respond 400 (Error "Missing required fields"))
     else
       match new_Date start_dt, new_Date end_dt with
       | Some start, Some end_ =>
           if bool_decide (end_ ≤ start)%Z
           then mret (respond 400 (Error "End time must be after start time"))
           else
             conflict_rowCount ←
               select_conflict (toUpperCase (ToString kind))
                 (ToNumber resource_id) start end_;
             if bool_decide (0 < conflict_rowCount)%nat
             then mret (respond 409 (ErrorMessage "CONFLICT"
               "That resource is already booked for this time window. Please choose another time."))
             else
               row ← insert_booking (toUpperCase (ToString kind))
                       (ToNumber resource_id) resource_name start end_
                       (or_null quantity) (or_null requester_name)
                       (or_null requester_role) (or_null purpose) now;
               mret (respond 201 (BookingRow row))
       | _, _ => mret (respond 400 (Error "Invalid datetime format"))
       end)
    (λ _, mret (respond 500 (Error "Server error"))).

(** The SET list [f] on the rows [WHERE id = $1]. *)
Definition rewrite_booking (f : booking → booking) (id : Z) (b : booking) : booking :=
  if bool_decide (b_id b = id) then f b else b.

(** [UPDATE bookings SET status = ..., <stamp> = NOW(), updated_at =
    NOW() WHERE id = $1 RETURNING *], for the SET list [f]. *)
Definition update_booking (f : booking → booking) (id : jsnum)
    : M (list booking) :=
  query UPDATE_bookings (λ d,
    match pg_int_of_num id with
    | inl e => inl e
    | inr id =>
        let l := map (rewrite_booking f id) (bookings d) in
        inr (filter (λ b, b_id b = id) l, set_bookings l d)
    end).

(** [SET status='ONGOING', started_at=NOW(), updated_at=NOW()] *)
Definition set_started (now : Z) (b : booking) : booking :=
  mkBooking (b_id b) (b_kind b) (b_resource_id b) (b_resource_name b)
    (b_start_dt b) (b_end_dt b) (b_quantity b) ONGOING (b_requester_name b)
    (b_requester_role b) (b_purpose b) (b_created_at b) now
    (Some now) (b_ended_at b) (b_canceled_at b).

(** [SET status='SUCCESS', ended_at=NOW(), updated_at=NOW()] *)
Definition set_finished (now : Z) (b : booking) : booking :=
  mkBooking (b_id b) (b_kind b) (b_resource_id b) (b_resource_name b)
    (b_start_dt b) (b_end_dt b) (b_quantity b) SUCCESS (b_requester_name b)
    (b_requester_role b) (b_purpose b) (b_created_at b) now
    (b_started_at b) (Some now) (b_canceled_at b).

(** [SET status='CANCEL', canceled_at=NOW(), updated_at=NOW()] *)
Definition set_canceled (now : Z) (b : booking) : booking :=
  mkBooking (b_id b) (b_kind b) (b_resource_id b) (b_resource_name b)
    (b_start_dt b) (b_end_dt b) (b_quantity b) CANCEL (b_requester_name b)
    (b_requester_role b) (b_purpose b) (b_created_at b) now
    (b_started_at b) (b_ended_at b) (Some now).

(** The body shared by the three transition handlers; [id] is
    [Number(req.params.id)]. *)
Definition transition (f : booking → booking) (id : jsnum) : M response :=
  try_catch
    (rows ← update_booking f id;
     match rows with
     | [] => mret (respond 404 (Error "Not found"))
     | row :: _ => mret (respond 200 (BookingRow row))
     end)
    (λ _, mret (respond 500 (Error "Server error"))).

(** [POST /api/bookings/:id/start], [.../finish], [.../cancel], each
    behind [requireAuth(['ADMIN','STAFF'])] *)
Definition start_booking (id : jsnum) (now : Z) : M response :=
  transition (set_started now) id.
Definition finish_booking (id : jsnum) (now : Z) : M response :=
  transition (set_finished now) id.
Definition cancel_booking (id : jsnum) (now : Z) : M response :=
  transition (set_canceled now) id.

(** ** The application *)

Inductive request : Type :=
  | GetResources (kind : option string)
  | PostResources (req_body : gmap string json)
  | PatchResource (id : jsnum) (req_body : gmap string json)
  | DeleteResource (id : jsnum) (hard mode : option string)
  | GetBookings
  | PostBookings (req_body : gmap string json)
  | PostBookingStart (id : jsnum)
  | PostBookingFinish (id : jsnum)
  | PostBookingCancel (id : jsnum).

(** The routes as registered on [app]; [now] is the reading of [NOW()]
    while the request is served. *)
Definition app (session : option user) (req : request) (now : Z) : M response :=
  match req with
  | GetResources kind => get_resources kind
  | PostResources req_body =>
      requireAuth ADMIN_STAFF session (post_resources req_body)
  | PatchResource id req_body =>
      requireAuth ADMIN_STAFF session (patch_resource id req_body now)
  | DeleteResource id hard mode =>
      requireAuth ADMIN_STAFF session (delete_resource id hard mode now)
  | GetBookings => get_bookings
  | PostBookings req_body => post_bookings req_body now
  | PostBookingStart id => requireAuth ADMIN_STAFF session (start_booking id now)
  | PostBookingFinish id => requireAuth ADMIN_STAFF session (finish_booking id now)
  | PostBookingCancel id => requireAuth ADMIN_STAFF session (cancel_booking id now)
  end.

(** Serving one request on a fresh connection. *)
Definition serve (session : option user) (req : request) (now : Z) (d : DB)
    : (pgerror + response) * conn :=
  app session req now (connect d).

End Runtime.

(** What was answered, if anything, and the contents afterwards. *)
Definition reply (x : (pgerror + response) * conn) : option response :=
  match x.1 with inr r => Some r | inl _ => None end.
Definition after (x : (pgerror + response) * conn) : DB := store x.2.
Definition statements (x : (pgerror + response) * conn) : list statement := sent x.2.

(** The database before any request: empty tables, sequences at 1. *)
Definition empty_db : DB := mkDB [] [] 1 1.

(** States the application can reach from the empty database. *)
Inductive reachable (js : runtime) : DB → Prop :=
  | reachable_empty : reachable js empty_db
  | reachable_serve session req now d :
      reachable js d → reachable js (after (serve js session req now d)).

(** ** CORS *)

(** [s.split(',')] *)
Fixpoint split_comma (s : string) : list string :=
  match s with
  | EmptyString => [EmptyString]
  | String c s' =>
      if Ascii.eqb c ","%char then EmptyString :: split_comma s'
      else match split_comma s' with
           | h :: t => String c h :: t
           | [] => [String c EmptyString]
           end
  end.

(** [ALLOWED], for the value of [process.env.ORIGIN_LIST] ([None] when
    the variable is not set). *)
Definition ALLOWED (ORIGIN_LIST : option string) : list string :=
  split_comma
    (default "" (or_else ORIGIN_LIST
                   (Some "http://localhost:5173,http://127.0.0.1:5173"))).

(** The [origin] callback of the CORS options: what it passes to [cb]
    for the request's Origin header ([None] when there is none). *)
Definition cors_origin (ORIGIN_LIST origin : option string) : bool :=
  if negb (truthy (JStr <$> origin)) then true
  else bool_decide (default "" origin ∈ ALLOWED ORIGIN_LIST).

(** ** Accounts and sessions *)

(** A row of [admin_users], with the columns the statements of index.js
    and seed-admin.js name.  [au_updated_at] is [None] until a statement
    writes the column. *)
Record admin_user : Type := mkAdminUser {
  au_id : Z;
  au_username : string;
  au_password_hash : string;
  au_role : string;
  au_updated_at : option Z
}.

(** bcryptjs, as far as the code uses it: [hash(password, 10)] with the
    salt it draws for the call, and [compare(password, hash)]. *)
Record bcryptjs : Type := {
  bcrypt_hash : string → string → string;
  bcrypt_compare : string → string → bool
}.

Inductive auth_payload : Type :=
  | AuthError (error : string)       (* { error } *)
  | AuthUser (u : user)              (* { user } *)
  | AuthMessage (message : string).  (* { message } *)

Record auth_response : Type :=
  auth_respond { auth_status : Z; auth_body : auth_payload }.

(** What an account route leaves behind: the answer, [req.session.user]
    and the table. *)
Record auth_outcome : Type := mkAuthOutcome {
  auth_reply : auth_response;
  session_after : option user;
  users_after : list admin_user
}.

Section Accounts.
Context (bc : bcryptjs).

(** [bcrypt.compare(s, hash)] and [bcrypt.hash(s, 10)] on a body value:
    bcryptjs rejects ("Illegal arguments") anything but a string, which
    is [None] here. *)
Definition compare_js (s : jsvalue) (hash : string) : option bool :=
  match s with
  | Some (JStr p) => Some (bcrypt_compare bc p hash)
  | _ => None
  end.

Definition hash_js (s : jsvalue) (salt : string) : option string :=
  match s with
  | Some (JStr p) => Some (bcrypt_hash bc p salt)
  | _ => None
  end.

(** [POST /api/auth/login] *)
Definition login (req_body : gmap string json) (session : option user)
    (users : list admin_user) : auth_outcome :=
  let username := req_body !! "username" in
  let password := req_body !! "password" in
  if negb (truthy username) || negb (truthy password)
  then mkAuthOutcome (auth_respond 400 (AuthError "Username and password required"))
         session users
  else
    match filter (λ a, Some (au_username a) = pg_text username) users with
    | [] => mkAuthOutcome (auth_respond 401 (AuthError "Invalid credentials"))
              session users
    | a :: _ =>
        match compare_js password (au_password_hash a) with
        | None => mkAuthOutcome (auth_respond 500 (AuthError "Server error"))
                    session users
        | Some false =>
            mkAuthOutcome (auth_respond 401 (AuthError "Invalid credentials"))
              session users
        | Some true =>
            let u := mkUser (au_id a) (au_username a) (au_role a) in
            mkAuthOutcome (auth_respond 200 (AuthUser u)) (Some u) users
        end
    end.

(** [POST /api/auth/logout]; [destroy_error] tells whether the session
    store reports an error, in which case the session is still held. *)
Definition logout (destroy_error : bool) (session : option user)
    (users : list admin_user) : auth_outcome :=
  if destroy_error
  then mkAuthOutcome (auth_respond 500 (AuthError "Logout failed")) session users
  else mkAuthOutcome (auth_respond 200 (AuthMessage "Logged out successfully"))
         None users.

(** [GET /api/auth/me] *)
Definition me (session : option user) (users : list admin_user) : auth_outcome :=
  match session with
  | None => mkAuthOutcome (auth_respond 401 (AuthError "Not authenticated"))
              session users
  | Some u => mkAuthOutcome (auth_respond 200 (AuthUser u)) session users
  end.

(** [newPassword.length < 6]: a value that is not a string has no
    length, and [undefined < 6] is false. *)
Definition shorter_than_6 (v : jsvalue) : bool :=
  match v with
  | Some (JStr s) => bool_decide (String.length s < 6)%nat
  | _ => false
  end.

(** [SET password_hash = $1, updated_at = NOW()] on the rows
    [WHERE id = $2]. *)
Definition rehashed (newHash : string) (now id : Z) (a : admin_user) : admin_user :=
  if bool_decide (au_id a = id)
  then mkAdminUser (au_id a) (au_username a) newHash (au_role a) (Some now)
  else a.

(** [POST /api/auth/change-password], with its guard [requireAuth()];
    [salt] is the salt bcryptjs draws for the new hash. *)
Definition change_password (req_body : gmap string json) (session : option user)
    (salt : string) (now : Z) (users : list admin_user) : auth_outcome :=
  match session with
  | None => mkAuthOutcome (auth_respond 401 (AuthError "Unauthorized: Please login"))
              session users
  | Some u =>
      if negb (bool_decide (role u ∈ ADMIN_STAFF))
      then mkAuthOutcome
             (auth_respond 403 (AuthError "Forbidden: Insufficient permissions"))
             session users
      else
        let currentPassword := req_body !! "currentPassword" in
        let newPassword := req_body !! "newPassword" in
        if negb (truthy currentPassword) || negb (truthy newPassword)
        then mkAuthOutcome
               (auth_respond 400 (AuthError "Current and new password required"))
               session users
        else if shorter_than_6 newPassword
        then mkAuthOutcome
               (auth_respond 400 (AuthError "New password must be at least 6 characters"))
               session users
        else
          let rows := filter (λ a, au_id a = user_id u) users in
          let password_hash :=
            match rows with a :: _ => au_password_hash a | [] => "" end in
          match compare_js currentPassword password_hash with
          | None => mkAuthOutcome (auth_respond 500 (AuthError "Server error"))
                      session users
          | Some false =>
              mkAuthOutcome
                (auth_respond 401 (AuthError "Current password is incorrect"))
                session users
          | Some true =>
              match hash_js newPassword salt with
              | None => mkAuthOutcome (auth_respond 500 (AuthError "Server error"))
                          session users
              | Some newHash =>
                  mkAuthOutcome
                    (auth_respond 200 (AuthMessage "Password changed successfully"))
                    session (map (rehashed newHash now (user_id u)) users)
              end
          end
  end.

(** [seed()] of seed-admin.js: [INSERT INTO admin_users (username,
    password_hash, role) VALUES ('admin', hash, 'ADMIN') ON CONFLICT
    (username) DO UPDATE SET password_hash = EXCLUDED.password_hash,
    updated_at = NOW()].  [new_id] is the identifier the database gives
    the row if it inserts one. *)
Definition seed (salt : string) (now new_id : Z) (users : list admin_user)
    : list admin_user :=
  let hash := bcrypt_hash bc "admin123" salt in
  if existsb (λ a, bool_decide (au_username a = "admin")) users
  then map (λ a, if bool_decide (au_username a = "admin")
                 then mkAdminUser (au_id a) (au_username a) hash (au_role a) (Some now)
                 else a) users
  else users ++ [mkAdminUser new_id "admin" hash "ADMIN" None].

End Accounts.

(** ** Vocabulary of the properties *)

(** The requests whose route is registered behind
    [requireAuth(['ADMIN','STAFF'])]. *)
Definition behind_guard (req : request) : bool :=
  match req with
  | PostResources _ | PatchResource _ _ | DeleteResource _ _ _
  | PostBookingStart _ | PostBookingFinish _ | PostBookingCancel _ => true
  | GetResources _ | GetBookings | PostBookings _ => false
  end.

(** A session the guard lets through. *)
Definition authorized (session : option user) : Prop :=
  ∃ u, session = Some u ∧ role u ∈ ADMIN_STAFF.










(** How a row [r'] after a PATCH with body [req_body] relates to the row
    [r] it comes from: identifier and kind are kept, and a column on the
    allow-list is kept unless the body names it. *)
Definition patched_from (req_body : gmap string json) (r r' : resource) : Prop :=
  r_id r' = r_id r ∧ r_kind r' = r_kind r
  ∧ (req_body !! "name" = None → r_name r' = r_name r)
  ∧ (req_body !! "subcategory" = None → r_subcategory r' = r_subcategory r)
  ∧ (req_body !! "type" = None → r_type r' = r_type r)
  ∧ (req_body !! "quantity" = None → r_quantity r' = r_quantity r)
  ∧ (req_body !! "status" = None → r_status r' = r_status r).







(** What one request can do to the database: nothing, or exactly one of
    the six changes the handlers' statements make. *)
Inductive effect (js : runtime) (d : DB) : DB → Prop :=
  | effect_none : effect js d d
  | effect_resource_added row :
      r_id row = resources_id_seq d →
      toUpperCase (r_kind row) = r_kind row →
      r_updated_at row = None →
      existsb (same_kind_name (r_kind row) (r_name row)) (resources d) = false →
      effect js d (mkDB (resources d ++ [row]) (bookings d)
                        (resources_id_seq d + 1) (bookings_id_seq d))
  | effect_resource_patched input now id l' :
      update_where_id (set_columns js input now) id (resources d) = inr l' →
      duplicates id l' = false →
      effect js d (set_resources l' d)
  | effect_resource_deactivated now id :
      effect js d (set_resources (map (deactivated now id) (resources d)) d)
  | effect_resource_deleted id :
      effect js d
        (mkDB (filter (λ r, r_id r ≠ id) (resources d))
              (filter (λ b, ¬ (b_resource_id b = id ∧ terminal (b_status b) = true))
                      (bookings d))
              (resources_id_seq d) (bookings_id_seq d))
  | effect_booking_added row :
      b_id row = bookings_id_seq d →
      b_status row = REQUEST →
      b_start_dt row < b_end_dt row →
      toUpperCase (b_kind row) = b_kind row →
      b_started_at row = None ∧ b_ended_at row = None ∧ b_canceled_at row = None →
      b_updated_at row = b_created_at row →
      existsb (conflicts_with (b_kind row) (b_resource_id row)
                 (b_start_dt row) (b_end_dt row)) (bookings d) = false →
      effect js d (mkDB (resources d) (bookings d ++ [row])
                        (resources_id_seq d) (bookings_id_seq d + 1))
  | effect_booking_rewritten f id now :
      f = set_started now ∨ f = set_finished now ∨ f = set_canceled now →
      effect js d (set_bookings (map (rewrite_booking f id) (bookings d)) d).

(** Identifiers are positive, below the table's sequence, and never
    repeated. *)
Definition well_keyed (d : DB) : Prop :=
  1 ≤ resources_id_seq d ∧ 1 ≤ bookings_id_seq d
  ∧ NoDup (map r_id (resources d))
  ∧ Forall (λ r, 1 ≤ r_id r < resources_id_seq d) (resources d)
  ∧ NoDup (map b_id (bookings d))
  ∧ Forall (λ b, 1 ≤ b_id b < bookings_id_seq d) (bookings d).

(** The (kind, name) of a resource. *)
Definition kind_name (r : resource) : string * string := (r_kind r, r_name r).

(** The stamps of a booking agree with its status: a REQUEST booking
    has never been touched, and each other status has left its stamp. *)
Definition stamps_agree (b : booking) : Prop :=
  match b_status b with
  | REQUEST => b_started_at b = None ∧ b_ended_at b = None ∧ b_canceled_at b = None
               ∧ b_updated_at b = b_created_at b
  | ONGOING => is_Some (b_started_at b)
  | SUCCESS => is_Some (b_ended_at b)
  | CANCEL => is_Some (b_canceled_at b)
  end.

(** The three transitions, with their route, their SET list, the status
    they set and the stamp they write. *)
Inductive move : Type := Start | Finish | Cancel.

Global Instance move_eq_dec : EqDecision move.
Proof. solve_decision. Defined.

Definition move_request (m : move) (id : Z) : request :=
  match m with
  | Start => PostBookingStart (NInt id)
  | Finish => PostBookingFinish (NInt id)
  | Cancel => PostBookingCancel (NInt id)
  end.

Definition move_change (m : move) (now : Z) : booking → booking :=
  match m with
  | Start => set_started now
  | Finish => set_finished now
  | Cancel => set_canceled now
  end.

Definition move_status (m : move) : booking_status :=
  match m with Start => ONGOING | Finish => SUCCESS | Cancel => CANCEL end.

Definition move_stamp (m : move) (b : booking) : option Z :=
  match m with
  | Start => b_started_at b
  | Finish => b_ended_at b
  | Cancel => b_canceled_at b
  end.

(** [l.join(',')] *)
Fixpoint join_comma (l : list string) : string :=
  match l with
  | [] => ""
  | [h] => h
  | h :: t => h +:+ "," +:+ join_comma t
  end.

(** The string holds a comma. *)
Fixpoint has_comma (s : string) : bool :=
  match s with
  | EmptyString => false
  | String c s' => Ascii.eqb c ","%char || has_comma s'
  end.

(** bcrypt accepts the password a hash was made from, and no other. *)
Definition bcrypt_accepts_own (bc : bcryptjs) : Prop :=
  ∀ p salt, bcrypt_compare bc p (bcrypt_hash bc p salt) = true.

(** The body of a login request. *)
Definition credentials (username password : string) : gmap string json :=
  {[ "username" := JStr username; "password" := JStr password ]}.

(** ** Data of the examples *)

(** A runtime for the examples: it reads the five ISO timestamps the
    examples use as [Date] does.  The examples hold no other date
    string, and no string where a number is expected. *)
Definition example_runtime : runtime := {|
  Number_str := λ _, NOther false;
  Date_parse := λ s,
    if bool_decide (s = "2025-01-01T10:00:00.000Z") then Some 1735725600000
    else if bool_decide (s = "2025-01-01T10:30:00.000Z") then Some 1735727400000
    else if bool_decide (s = "2025-01-01T11:00:00.000Z") then Some 1735729200000
    else if bool_decide (s = "2025-01-01T11:30:00.000Z") then Some 1735731000000
    else if bool_decide (s = "2025-01-01T12:00:00.000Z") then Some 1735732800000
    else None;
  pg_int4in := λ _, None
|}.

Definition admin : option user := Some (mkUser 1 "admin" "ADMIN").
Definition guest : option user := Some (mkUser 7 "guest" "GUEST").

(** A booking request for resource 1 of kind ROOM over [[start, end)]. *)
Definition room_request (start_dt end_dt : string) : gmap string json :=
  list_to_map [("kind", JStr "room"); ("resource_id", JNum 1);
               ("resource_name", JStr "Room A");
               ("start_dt", JStr start_dt); ("end_dt", JStr end_dt)].

Definition ten : string := "2025-01-01T10:00:00.000Z".
Definition eleven : string := "2025-01-01T11:00:00.000Z".
Definition twelve : string := "2025-01-01T12:00:00.000Z".

(** Room A booked from ten to eleven (booking 1). *)
Definition booked_once : DB :=
  after (serve example_runtime None (PostBookings (room_request ten eleven)) 0 empty_db).

(** ... then booking 1 canceled by the administrator, *)
Definition canceled : DB :=
  after (serve example_runtime admin (PostBookingCancel (NInt 1)) 1 booked_once).

(** ... then the same hour booked again (booking 2), *)
Definition booked_again : DB :=
  after (serve example_runtime None (PostBookings (room_request ten eleven)) 2 canceled).

(** ... then booking 1 started. *)
Definition restarted : DB :=
  after (serve example_runtime admin (PostBookingStart (NInt 1)) 3 booked_again).

(** The body of a request that creates Room A. *)
Definition room_a : gmap string json :=
  list_to_map [("kind", JStr "room"); ("name", JStr "Room A")].

(** Room A stored (resource 1), and Room A with booking 1 on it. *)
Definition one_room : DB :=
  after (serve example_runtime admin (PostResources room_a) 0 empty_db).
Definition one_room_booked : DB :=
  after (serve example_runtime None (PostBookings (room_request ten eleven)) 1 one_room).


(** The body of a request that creates Room B, and the store with Room A
    (resource 1) and Room B (resource 2). *)
Definition room_b : gmap string json :=
  list_to_map [("kind", JStr "Room"); ("name", JStr "Room B")].
Definition two_rooms : DB :=
  after (serve example_runtime admin (PostResources room_b) 1 one_room).

(** A stand-in for bcryptjs in the examples.  It is no hash function:
    the hash of a password is the password itself, whatever the salt,
    and a password is accepted when it equals the hash. *)
Definition example_bcrypt : bcryptjs := {|
  bcrypt_hash := λ p _, p;
  bcrypt_compare := λ p h, bool_decide (p = h)
|}.

(** Three accounts: an administrator, a staff member, and one whose role
    the guard does not know. *)
Definition example_users : list admin_user :=
  [mkAdminUser 1 "admin" (bcrypt_hash example_bcrypt "admin123" "") "ADMIN" None;
   mkAdminUser 2 "desk" (bcrypt_hash example_bcrypt "letmein" "") "STAFF" None;
   mkAdminUser 3 "visitor" (bcrypt_hash example_bcrypt "hello123" "") "GUEST" None].

(** The body of a password change. *)
Definition new_password (currentPassword newPassword : string) : gmap string json :=
  {[ "currentPassword" := JStr currentPassword; "newPassword" := JStr newPassword ]}.

(** ** Properties *)

Section Properties.
Context (js : runtime).

Ltac run :=
  unfold serve, app, requireAuth, get_resources, post_resources,
    patch_resource, delete_resource, get_bookings, post_bookings,
    start_booking, finish_booking, cancel_booking, transition,
    select_resources, insert_resource, update_resource,
    deactivate_resource, select_active_bookings, delete_terminal_bookings,
    delete_resource_row, select_bookings, select_conflict, insert_booking,
    update_booking, begin_, commit, rollback, query, try_catch,
    connect, reply, after, statements, mbind, M_bind, mret, M_ret in *;
  simpl in *.

(** C5: a booking request whose end is not after its start is answered
    400 whatever else it holds; nothing is sent to the database (so no
    conflict query) and the contents are as before. *)
Theorem post_bookings_rejects_empty_interval
    (session : option user) (req_body : gmap string json) (now : Z) (d : DB)
    (start end_ : Z) :
  new_Date js (req_body !! "start_dt") = Some start →
  new_Date js (req_body !! "end_dt") = Some end_ →
  end_ ≤ start →
  status <$> reply (serve js session (PostBookings req_body) now d) = Some 400
  ∧ after (serve js session (PostBookings req_body) now d) = d
  ∧ statements (serve js session (PostBookings req_body) now d) = [].
Proof.
  intros Hs He Hle. run. rewrite Hs, He.
  destruct (negb _ || _ || _ || _ || _); [done|].
  rewrite bool_decide_eq_true_2 by done. done.
Qed.


(** C4 (as amended): the routes that create, update or delete a resource
    and the booking transitions sit behind the guard: without a session
    they answer 401, with a role other than ADMIN or STAFF they answer
    403, and in both cases nothing is sent to the database and its
    contents stay.  Booking creation and the two read routes are
    registered without the guard: their outcome does not depend on the
    session. *)
Theorem guard_on_mutations (session : option user) (req : request) (now : Z) (d : DB) :
  (behind_guard req = true →
     (session = None →
        reply (serve js session req now d)
          = Some (respond 401 (Error "Unauthorized: Please login"))
        ∧ after (serve js session req now d) = d
        ∧ statements (serve js session req now d) = [])
     ∧ (∀ u, session = Some u → role u ∉ ADMIN_STAFF →
        reply (serve js session req now d)
          = Some (respond 403 (Error "Forbidden: Insufficient permissions"))
        ∧ after (serve js session req now d) = d
        ∧ statements (serve js session req now d) = []))
  ∧ (behind_guard req = false →
       serve js session req now d = serve js None req now d).
Proof.
  split.
  - intros Hg. split.
    + intros ->. destruct req; simpl in Hg; try done; run; done.
    + intros u -> Hu.
      destruct req; simpl in Hg; try done; run;
        rewrite bool_decide_eq_false_2 by done; done.
  - intros Hg. destruct req; simpl in Hg; done.
Qed.

(** *** The guard, once passed *)

Lemma requireAuth_pass session (m : M response) :
  authorized session → requireAuth ADMIN_STAFF session m = m.
Proof.
  intros (u & -> & Hu). unfold requireAuth.
  by rewrite bool_decide_eq_true_2.
Qed.

(** *** Transitions *)

Lemma transition_run (f : booking → booking) (id : Z) (d : DB) :
  transition f (NInt id) (connect d)
  = (inr (match filter (λ b, b_id b = id) (map (rewrite_booking f id) (bookings d)) with
          | [] => respond 404 (Error "Not found")
          | row :: _ => respond 200 (BookingRow row)
          end),
     mkConn (set_bookings (map (rewrite_booking f id) (bookings d)) d) None
            [UPDATE_bookings]).
Proof.
  run. fold (rewrite_booking f id).
  by destruct (filter _ _).
Qed.



Lemma filter_absent (id : Z) (l : list booking) :
  (∀ b, b ∈ l → b_id b ≠ id) → filter (λ b, b_id b = id) l = [].
Proof.
  intros H. induction l as [|b l IH]; [done|].
  rewrite filter_cons_False by (apply H; left).
  apply IH. intros b' Hb'. apply H. by right.
Qed.


Lemma set_resources_same d : set_resources (resources d) d = d.
Proof. by destruct d. Qed.



(** *** Booking creation *)








(** *** Resource creation *)




(** *** Resource deletion *)





Lemma soft_delete_run (id now : Z) (hard mode : option string) (d : DB) :
  isHard hard mode = false →
  delete_resource (NInt id) hard mode now (connect d)
  = (inr (if bool_decide (length (filter (λ r, r_id r = id) (resources d)) = 0%nat)
          then respond 404 (Error "not found") else respond 204 Empty),
     mkConn (set_resources (map (deactivated now id) (resources d)) d) None
            [UPDATE_resources]).
Proof.
  intros Hsoft. unfold delete_resource. rewrite Hsoft. run.
  fold (deactivated now id). by case_bool_decide.
Qed.

Lemma hard_delete_run (id now : Z) (hard mode : option string) (d : DB) :
  isHard hard mode = true →
  delete_resource (NInt id) hard mode now (connect d)
  = if existsb (λ b, bool_decide (b_resource_id b = id) && active (b_status b))
         (bookings d)
    then (inr (respond 409 (ErrorMessage "in_use"
            "Cannot delete: there are active bookings (REQUEST/ONGOING) for this resource.")),
          mkConn d None [BEGIN; SELECT_bookings; ROLLBACK])
    else if bool_decide (length (filter (λ r, r_id r = id) (resources d)) = 0%nat)
    then (inr (respond 404 (Error "not found")),
          mkConn d None
            [BEGIN; SELECT_bookings; DELETE_bookings; DELETE_resources; ROLLBACK])
    else (inr (respond 204 Empty),
          mkConn (mkDB (filter (λ r, r_id r ≠ id) (resources d))
                    (filter (λ b, ¬ (b_resource_id b = id ∧ terminal (b_status b) = true))
                       (bookings d))
                    (resources_id_seq d) (bookings_id_seq d))
            None
            [BEGIN; SELECT_bookings; DELETE_bookings; DELETE_resources; COMMIT]).
Proof.
  intros Hhard. unfold delete_resource. rewrite Hhard. run.
  destruct (existsb _ _); simpl; [done|].
  by case_bool_decide.
Qed.



(** *** Resource update *)

Lemma patch_input_lookup (req_body : gmap string json) (k : string) :
  k ∈ allowed → patch_input req_body !! k = req_body !! k.
Proof.
  intros Hk. unfold patch_input. apply option_eq. intros v.
  rewrite map_lookup_filter_Some. simpl. tauto.
Qed.

Lemma patch_input_empty (req_body : gmap string json) :
  (∀ k, k ∈ allowed → req_body !! k = None) → size (patch_input req_body) = 0%nat.
Proof.
  intros H. apply map_size_empty_iff. apply map_eq. intros k.
  rewrite lookup_empty. unfold patch_input.
  apply map_lookup_filter_None. destruct (req_body !! k) eqn:Hk; [|by left].
  right. intros v Hv Hin. simpl in Hin. rewrite H in Hk; done.
Qed.

Lemma set_columns_frame (input : gmap string json) (now : Z) (r r' : resource) :
  set_columns js input now r = inr r' →
  r_id r' = r_id r ∧ r_kind r' = r_kind r ∧ r_updated_at r' = Some now
  ∧ (input !! "name" = None → r_name r' = r_name r)
  ∧ (input !! "subcategory" = None → r_subcategory r' = r_subcategory r)
  ∧ (input !! "type" = None → r_type r' = r_type r)
  ∧ (input !! "quantity" = None → r_quantity r' = r_quantity r)
  ∧ (input !! "status" = None → r_status r' = r_status r).
Proof.
  unfold set_columns. intros H.
  destruct (input !! "name") as [vn|]; [destruct (pg_text (Some vn)); [|done]|];
  (destruct (input !! "status") as [vs|];
     [destruct (status_of_json (Some vs)); [|done]|]);
  (destruct (input !! "quantity") as [vq|];
     [destruct (pg_int js (Some vq)); [done|]|]);
  simplify_eq; repeat split; try done; intros Hx; try done; simpl; by rewrite Hx.
Qed.

(** [update_where_id] rewrites rows in place. *)
Lemma update_where_id_rows (f : resource → pgerror + resource) (id : Z)
    (l l' : list resource) :
  update_where_id f id l = inr l' →
  Forall2 (λ r r', (r_id r ≠ id ∧ r' = r) ∨ (r_id r = id ∧ f r = inr r')) l l'.
Proof.
  revert l'. induction l as [|r l IH]; intros l' H; simpl in H.
  - simplify_eq. constructor.
  - case_bool_decide as Hid.
    + destruct (f r) as [e|r1] eqn:Hf; [done|].
      destruct (update_where_id f id l) as [e|l1]; [done|]. simplify_eq.
      constructor; [by right | by apply IH].
    + destruct (update_where_id f id l) as [e|l1]; [done|]. simplify_eq.
      constructor; [by left | by apply IH].
Qed.

Lemma update_where_id_absent (f : resource → pgerror + resource) (id : Z)
    (l l' : list resource) :
  update_where_id f id l = inr l' →
  (∀ r r', f r = inr r' → r_id r' = r_id r) →
  filter (λ r, r_id r = id) l' = [] → l' = l.
Proof.
  intros H Hf. apply update_where_id_rows in H.
  induction H as [|r r' l l' Hr _ IH]; [done|].
  intros Hnil. destruct Hr as [[Hid ->]|[Hid Hfr]].
  - rewrite filter_cons_False in Hnil by done. by rewrite IH.
  - rewrite filter_cons_True in Hnil; [done|]. by rewrite (Hf _ _ Hfr).
Qed.

(** The outcome of the UPDATE the PATCH handler sends. *)
Lemma patch_resource_outcome (id now : Z) (req_body : gmap string json) (d : DB) :
  (after (patch_resource js (NInt id) req_body now (connect d)) = d
   ∧ status <$> reply (patch_resource js (NInt id) req_body now (connect d)) ≠ Some 200)
  ∨ (∃ l' row,
       update_where_id (set_columns js (patch_input req_body) now) id (resources d)
         = inr l'
       ∧ head (filter (λ r, r_id r = id) l') = Some row
       ∧ after (patch_resource js (NInt id) req_body now (connect d))
         = set_resources l' d
       ∧ reply (patch_resource js (NInt id) req_body now (connect d))
         = Some (respond 200 (ResourceRow row))).
Proof.
  unfold patch_resource. fold (patch_input req_body).
  unfold try_catch, reply, after, connect, update_resource, query,
    mbind, M_bind, mret, M_ret.
  cbn -[pg_int set_columns update_where_id duplicates patch_input lt_zero
        status_of_json].
  case_bool_decide; [by left|].
  destruct (_ && lt_zero js _); [by left|].
  destruct (_ && negb _); [by left|].
  destruct (match patch_input req_body !! "quantity" with
            | Some v => pg_int js (Some v) | None => inr None end) as [e|q].
  { left. by destruct e. }
  cbn -[set_columns update_where_id duplicates patch_input].
  destruct (update_where_id _ id (resources d)) as [e|l'] eqn:Hup.
  { left. by destruct e. }
  destruct (duplicates id l').
  { by left. }
  cbn. destruct (filter (λ r, r_id r = id) l') as [|row rows] eqn:Hrows.
  - left. cbn. split; [|done].
    rewrite (update_where_id_absent _ id (resources d) l' Hup); [apply set_resources_same| |done].
    intros r r' Hr. by apply set_columns_frame in Hr as (? & _).
  - right. exists l', row. by rewrite Hrows.
Qed.

Lemma allowed_quantity : "quantity" ∈ allowed.
Proof. unfold allowed. set_solver. Qed.
Lemma allowed_status : "status" ∈ allowed.
Proof. unfold allowed. set_solver. Qed.
Lemma allowed_name : "name" ∈ allowed.
Proof. unfold allowed. set_solver. Qed.
Lemma allowed_subcategory : "subcategory" ∈ allowed.
Proof. unfold allowed. set_solver. Qed.
Lemma allowed_type : "type" ∈ allowed.
Proof. unfold allowed. set_solver. Qed.

Lemma patched_from_refl (req_body : gmap string json) (r : resource) :
  patched_from req_body r r.
Proof. by repeat split. Qed.

(** The validation steps of the PATCH handler, none of which reaches
    the database. *)
Lemma patch_resource_rejects (id now : Z) (req_body : gmap string json) (d : DB) :
  size (patch_input req_body) = 0%nat
  ∨ lt_zero js (req_body !! "quantity") = true
  ∨ (∃ v, req_body !! "status" = Some v ∧ status_of_json (Some v) = None) →
  status <$> reply (patch_resource js (NInt id) req_body now (connect d)) = Some 400
  ∧ after (patch_resource js (NInt id) req_body now (connect d)) = d
  ∧ statements (patch_resource js (NInt id) req_body now (connect d)) = [].
Proof.
  intros H.
  unfold patch_resource. fold (patch_input req_body).
  rewrite (patch_input_lookup _ "quantity" allowed_quantity).
  rewrite (patch_input_lookup _ "status" allowed_status).
  unfold try_catch, reply, after, statements, connect, mret, M_ret.
  case_bool_decide as Hsize; [done|].
  destruct H as [H|[H|(v & Hv & Hst)]]; [done| |].
  - rewrite H. rewrite bool_decide_eq_true_2; [done|].
    destruct (req_body !! "quantity"); [done|]. done.
  - destruct (_ && lt_zero js _); [done|].
    rewrite Hv, Hst. rewrite bool_decide_eq_true_2 by done.
    rewrite bool_decide_eq_false_2; [done|]. by intros [].
Qed.

(** C9 (as amended): for a session the guard lets through, a PATCH on
    resource [id] leaves [bookings] alone and rewrites [resources] row
    by row: rows of another id are untouched; a row keeps its id and
    kind, and keeps each of name, subcategory, type, quantity and status
    unless the body names that field; a rewritten row also gets
    [updated_at] set to the current time.  A body without any
    allow-listed field, a negative quantity and a status outside the
    three values are answered 400 before anything is sent, and whenever
    the answer is not 200 the contents are as before. *)
Theorem patch_resource_frame
    (session : option user) (id now : Z) (req_body : gmap string json) (d : DB) :
  authorized session →
  bookings (after (serve js session (PatchResource (NInt id) req_body) now d))
    = bookings d
  ∧ Forall2 (λ r r', patched_from req_body r r'
                     ∧ (r_id r ≠ id → r' = r)
                     ∧ (r' = r ∨ r_updated_at r' = Some now))
      (resources d)
      (resources (after (serve js session (PatchResource (NInt id) req_body) now d)))
  ∧ ((∀ k, k ∈ allowed → req_body !! k = None)
     ∨ lt_zero js (req_body !! "quantity") = true
     ∨ (∃ n, req_body !! "quantity" = Some (JNum n) ∧ n < 0)
     ∨ (∃ v, req_body !! "status" = Some v ∧ status_of_json (Some v) = None) →
       status <$> reply (serve js session (PatchResource (NInt id) req_body) now d)
         = Some 400
       ∧ statements (serve js session (PatchResource (NInt id) req_body) now d) = [])
  ∧ (status <$> reply (serve js session (PatchResource (NInt id) req_body) now d)
       ≠ Some 200 →
     after (serve js session (PatchResource (NInt id) req_body) now d) = d)
  ∧ (status <$> reply (serve js session (PatchResource (NInt id) req_body) now d)
       = Some 200 →
     ∃ row,
       reply (serve js session (PatchResource (NInt id) req_body) now d)
         = Some (respond 200 (ResourceRow row))
       ∧ row ∈ resources (after (serve js session (PatchResource (NInt id) req_body) now d))
       ∧ r_id row = id ∧ r_updated_at row = Some now).
Proof.
  intros Hauth.
  assert (serve js session (PatchResource (NInt id) req_body) now d
          = patch_resource js (NInt id) req_body now (connect d)) as ->.
  { unfold serve, app. by rewrite requireAuth_pass. }
  assert (∀ r r', set_columns js (patch_input req_body) now r = inr r' →
            patched_from req_body r r' ∧ r_updated_at r' = Some now) as Hset.
  { intros r r' Hr. apply set_columns_frame in Hr
      as (Hi & Hk & Hu & Hn & Hs & Ht & Hq & Hst).
    rewrite (patch_input_lookup _ "name" allowed_name) in Hn.
    rewrite (patch_input_lookup _ "subcategory" allowed_subcategory) in Hs.
    rewrite (patch_input_lookup _ "type" allowed_type) in Ht.
    rewrite (patch_input_lookup _ "quantity" allowed_quantity) in Hq.
    rewrite (patch_input_lookup _ "status" allowed_status) in Hst.
    by repeat split. }
  assert (Forall2 (λ r r', patched_from req_body r r' ∧ (r_id r ≠ id → r' = r)
                           ∧ (r' = r ∨ r_updated_at r' = Some now))
            (resources d) (resources d)) as Hrefl.
  { apply Forall2_same_length_lookup_2; [done|].
    intros i r r' H1 H2. simplify_eq.
    split; [apply patched_from_refl|]. split; [done|by left]. }
  split; [|split; [|split; [|split]]].
  - destruct (patch_resource_outcome id now req_body d)
      as [[-> _]|(l' & row & Hup & Hrow & -> & _)]; by destruct d.
  - destruct (patch_resource_outcome id now req_body d)
      as [[-> _]|(l' & row & Hup & Hrow & -> & _)]; [done|].
    simpl. apply update_where_id_rows in Hup.
    eapply Forall2_impl; [exact Hup|].
    intros r r' [[Hid ->]|[Hid Hr]].
    + split; [apply patched_from_refl|]. split; [done|by left].
    + apply Hset in Hr as [Hp Hu]. split; [done|]. split; [done|by right].
  - intros H.
    destruct (patch_resource_rejects id now req_body d) as (Hs & _ & Hq); [|done].
    destruct H as [H|[H|[(n & Hn & Hneg)|H]]].
    + left. by apply patch_input_empty.
    + right. by left.
    + right. left. unfold lt_zero. rewrite Hn. simpl.
      by apply bool_decide_eq_true_2.
    + right. by right.
  - intros Hne.
    destruct (patch_resource_outcome id now req_body d)
      as [[Ha _]|(l' & row & _ & _ & _ & Hr)]; [done|].
    rewrite Hr in Hne. done.
  - intros H200.
    destruct (patch_resource_outcome id now req_body d)
      as [[_ Hne]|(l' & row & Hup & Hrow & -> & ->)]; [done|].
    exists row. split; [done|]. simpl.
    assert (row ∈ filter (λ r, r_id r = id) l') as Hin.
    { destruct (filter _ l'); simplify_eq/=. left. }
    apply list_elem_of_filter in Hin as [Hid Hin].
    split; [done|]. split; [done|].
    apply update_where_id_rows in Hup.
    apply list_elem_of_lookup in Hin as [i Hi].
    destruct (Forall2_lookup_r _ _ _ _ _ Hup Hi) as (r & Hr & Hcase).
    destruct Hcase as [[Hne ->]|[_ Hsr]]; [done|].
    by apply Hset in Hsr as [_ ?].
Qed.

(** *** The no-double-booking invariant *)








(** *** What each handler can do to [bookings] *)

Lemma requireAuth_cases (session : option user) (m : M response) (d : DB) :
  requireAuth ADMIN_STAFF session m (connect d) = m (connect d)
  ∨ after (requireAuth ADMIN_STAFF session m (connect d)) = d.
Proof.
  unfold requireAuth. destruct session as [u|]; [|by right].
  case_bool_decide; [by left|by right].
Qed.

Lemma get_resources_after (kind : option string) (d : DB) :
  after (get_resources kind (connect d)) = d.
Proof. run. by repeat case_match. Qed.

Lemma get_bookings_after (d : DB) : after (get_bookings (connect d)) = d.
Proof. by run. Qed.








(** *** Answers and side effects *)












(** *** The effect of a request *)

Lemma upper_ascii_idem (c : ascii) : upper_ascii (upper_ascii c) = upper_ascii c.
Proof. by destruct c as [[] [] [] [] [] [] [] []]. Qed.

Lemma toUpperCase_idem (s : string) : toUpperCase (toUpperCase s) = toUpperCase s.
Proof.
  unfold toUpperCase. induction s as [|c s IH]; [done|].
  simpl. by rewrite upper_ascii_idem, IH.
Qed.

Lemma post_resources_effect (req_body : gmap string json) (d : DB) :
  effect js d (after (post_resources js req_body (connect d))).
Proof.
  unfold post_resources, insert_resource, query, try_catch, connect, after,
    mbind, M_bind, mret, M_ret.
  destruct (negb _ || negb _); [constructor|].
  destruct (lt_zero js _); [constructor|].
  destruct (status_of_json _); [|constructor].
  cbn -[pg_int pg_text quantity_or_default].
  destruct (pg_int js _) as [e|q]; [destruct e; constructor|].
  destruct (pg_text _) as [n|]; [|constructor].
  destruct (existsb _ _) eqn:Hex; [constructor|].
  cbn. apply effect_resource_added; simpl; try done.
  apply toUpperCase_idem.
Qed.

Lemma patch_resource_effect (id : jsnum) (req_body : gmap string json) (now : Z) (d : DB) :
  effect js d (after (patch_resource js id req_body now (connect d))).
Proof.
  destruct id as [i|neg]; [|constructor].
  unfold patch_resource, update_resource, query, try_catch, connect, after,
    mbind, M_bind, mret, M_ret.
  case_bool_decide; [constructor|].
  destruct (_ && lt_zero js _); [constructor|].
  destruct (_ && negb _); [constructor|].
  cbn -[pg_int set_columns update_where_id duplicates patch_input].
  destruct (match patch_input req_body !! "quantity" with
            | Some v => pg_int js (Some v) | None => inr None end) as [e|q];
    [destruct e; constructor|].
  destruct (update_where_id _ i (resources d)) as [e|l'] eqn:Hup;
    [destruct e; constructor|].
  destruct (duplicates i l') eqn:Hdup; [constructor|].
  cbn. destruct (filter _ l'); by eapply effect_resource_patched.
Qed.

Lemma delete_resource_effect (id : jsnum) (hard mode : option string) (now : Z) (d : DB) :
  effect js d (after (delete_resource id hard mode now (connect d))).
Proof.
  destruct id as [i|neg]; [|constructor].
  destruct (isHard hard mode) eqn:Hh.
  - rewrite hard_delete_run by done.
    destruct (existsb _ _); [constructor|].
    case_bool_decide; [constructor|]. apply effect_resource_deleted.
  - rewrite soft_delete_run by done. apply effect_resource_deactivated.
Qed.

Lemma post_bookings_effect (req_body : gmap string json) (now : Z) (d : DB) :
  effect js d (after (post_bookings js req_body now (connect d))).
Proof.
  unfold post_bookings, select_conflict, insert_booking, query, try_catch, connect,
    after, mbind, M_bind, mret, M_ret.
  destruct (negb _ || negb _ || negb _ || negb _ || negb _); [constructor|].
  destruct (new_Date js _) as [start|]; [|constructor].
  destruct (new_Date js _) as [end_|]; [|constructor].
  case_bool_decide as Hle; [constructor|].
  cbn -[pg_int pg_text or_null ToNumber].
  destruct (pg_int_of_num _) as [e|rid]; [constructor|].
  cbn -[pg_int pg_text or_null ToNumber].
  destruct (existsb _ _) eqn:Hex; [constructor|].
  cbn -[pg_int pg_text or_null ToNumber].
  destruct (pg_int js _) as [e|q]; [constructor|].
  destruct (pg_text _) as [n|]; [|constructor].
  cbn. apply effect_booking_added; simpl; try done; [lia|].
  apply toUpperCase_idem.
Qed.

Lemma transition_effect_shape (f : booking → booking) (id : jsnum) (now : Z) (d : DB) :
  f = set_started now ∨ f = set_finished now ∨ f = set_canceled now →
  effect js d (after (transition f id (connect d))).
Proof.
  intros Hf. destruct id as [i|neg]; [|constructor].
  rewrite transition_run. by eapply effect_booking_rewritten.
Qed.

(** Every request has one of the listed effects. *)
Lemma serve_effect (session : option user) (req : request) (now : Z) (d : DB) :
  effect js d (after (serve js session req now d)).
Proof.
  unfold serve, app.
  assert (∀ m : M response,
            effect js d (after (m (connect d))) →
            effect js d (after (requireAuth ADMIN_STAFF session m (connect d))))
    as Hguard.
  { intros m Hm.
    destruct (requireAuth_cases session m d) as [->| ->]; [done|constructor]. }
  destruct req as [kind|body|id body|id hard mode| |body|id|id|id].
  - rewrite get_resources_after. constructor.
  - apply Hguard, post_resources_effect.
  - apply Hguard, patch_resource_effect.
  - apply Hguard, delete_resource_effect.
  - rewrite get_bookings_after. constructor.
  - apply post_bookings_effect.
  - apply Hguard, (transition_effect_shape _ _ now). by left.
  - apply Hguard, (transition_effect_shape _ _ now). right. by left.
  - apply Hguard, (transition_effect_shape _ _ now). right. by right.
Qed.

(** An invariant of the empty database that every effect keeps holds in
    every reachable state. *)
Lemma reachable_ind_effect (P : DB → Prop) :
  P empty_db → (∀ d d', P d → effect js d d' → P d') →
  ∀ d, reachable js d → P d.
Proof.
  intros H0 Hstep d Hd. induction Hd as [|session req now d _ IH]; [done|].
  eapply Hstep; [exact IH|apply serve_effect].
Qed.

(** *** Identifiers *)

Lemma NoDup_map_filter {A B} (f : A → B) (P : A → Prop) `{!∀ x, Decision (P x)}
    (l : list A) :
  NoDup (map f l) → NoDup (map f (filter P l)).
Proof.
  induction l as [|x l IH]; [done|]. simpl. intros Hnd.
  apply NoDup_cons in Hnd as [Hx Hl].
  destruct (decide (P x)).
  - rewrite filter_cons_True by done. simpl. apply NoDup_cons. split; [|by apply IH].
    intros Hin. apply Hx.
    apply list_elem_of_fmap in Hin as (y & -> & Hy).
    apply list_elem_of_filter in Hy as [_ Hy].
    apply list_elem_of_fmap. by exists y.
  - rewrite filter_cons_False by done. by apply IH.
Qed.

Lemma Forall_filter_keep {A} (Q P : A → Prop) `{!∀ x, Decision (P x)} (l : list A) :
  Forall Q l → Forall Q (filter P l).
Proof.
  rewrite !Forall_forall. intros Hall x Hx.
  apply list_elem_of_filter in Hx as [_ Hx]. by apply Hall.
Qed.

Lemma patched_rows (input : gmap string json) (now id : Z) (l l' : list resource) :
  update_where_id (set_columns js input now) id l = inr l' →
  Forall2 (λ r r', r_id r' = r_id r ∧ r_kind r' = r_kind r
                   ∧ (r_id r ≠ id → r' = r)) l l'.
Proof.
  intros Hup. apply update_where_id_rows in Hup.
  eapply Forall2_impl; [exact Hup|].
  intros r r' [[Hid ->]|[Hid Hr]]; [done|].
  apply set_columns_frame in Hr as (Hi & Hk & _). by rewrite Hi, Hk, Hid.
Qed.

Lemma patched_ids (input : gmap string json) (now id : Z) (l l' : list resource) :
  update_where_id (set_columns js input now) id l = inr l' →
  map r_id l' = map r_id l.
Proof.
  intros Hup. apply patched_rows in Hup.
  induction Hup as [|r r' l l' (Hi & _) _ IH]; [done|]. simpl. by rewrite Hi, IH.
Qed.

Lemma deactivated_ids (now id : Z) (l : list resource) :
  map r_id (map (deactivated now id) l) = map r_id l.
Proof.
  induction l as [|r l IH]; [done|]. simpl. rewrite IH. f_equal.
  unfold deactivated. by case_bool_decide.
Qed.

Lemma rewritten_ids (f : booking → booking) (id : Z) (l : list booking) :
  (∀ b, b_id (f b) = b_id b) →
  map b_id (map (rewrite_booking f id) l) = map b_id l.
Proof.
  intros Hf. induction l as [|b l IH]; [done|]. simpl. rewrite IH. f_equal.
  unfold rewrite_booking. case_bool_decide; [apply Hf|done].
Qed.

Lemma Forall_ids {A} (key : A → Z) (l l' : list A) (n : Z) :
  map key l' = map key l →
  Forall (λ x, 1 ≤ key x < n) l → Forall (λ x, 1 ≤ key x < n) l'.
Proof.
  intros Hmap H.
  assert (Forall (λ k, 1 ≤ k < n) (map key l)) as Hk by (by apply Forall_fmap).
  rewrite <- Hmap in Hk. by apply Forall_fmap in Hk.
Qed.

Lemma NoDup_snoc_fresh {A} (key : A → Z) (l : list A) (x : A) (n : Z) :
  NoDup (map key l) → Forall (λ y, 1 ≤ key y < n) l → key x = n →
  NoDup (map key (l ++ [x])).
Proof.
  intros Hnd Hall Hx. rewrite map_app. apply NoDup_app. split; [done|]. split.
  - intros k Hk Hin. simpl in Hin. apply list_elem_of_singleton in Hin. subst k.
    apply list_elem_of_fmap in Hk as (y & Hy & Hin).
    rewrite Forall_forall in Hall. specialize (Hall y Hin). lia.
  - simpl. apply NoDup_singleton.
Qed.

Lemma well_keyed_effect (d d' : DB) :
  well_keyed d → effect js d d' →
  well_keyed d'
  ∧ resources_id_seq d ≤ resources_id_seq d'
  ∧ bookings_id_seq d ≤ bookings_id_seq d'.
Proof.
  intros (Hr1 & Hb1 & Hrn & Hrf & Hbn & Hbf) He.
  destruct He as [|row Hid _ _ _|input now id l' Hup _|now id|id
                  |row Hid _ _ _ _ _ _|f id now Hf];
    unfold well_keyed; simpl.
  - split_and!; try done; lia.
  - split_and!; try done; try lia.
    + by apply (NoDup_snoc_fresh r_id _ _ (resources_id_seq d)).
    + apply Forall_app. split.
      * eapply Forall_impl; [exact Hrf|]. simpl. intros; lia.
      * apply Forall_singleton. lia.
  - split_and!; try done; try lia.
    + by rewrite (patched_ids _ _ _ _ _ Hup).
    + eapply Forall_ids; [|exact Hrf]. by eapply patched_ids.
  - split_and!; try done; try lia.
    + by rewrite deactivated_ids.
    + eapply Forall_ids; [|exact Hrf]. apply deactivated_ids.
  - split_and!; try done; try lia.
    + by apply NoDup_map_filter.
    + by apply Forall_filter_keep.
    + by apply NoDup_map_filter.
    + by apply Forall_filter_keep.
  - split_and!; try done; try lia.
    + by apply (NoDup_snoc_fresh b_id _ _ (bookings_id_seq d)).
    + apply Forall_app. split.
      * eapply Forall_impl; [exact Hbf|]. simpl. intros; lia.
      * apply Forall_singleton. lia.
  - assert (∀ b, b_id (f b) = b_id b) as Hfid
      by (by destruct Hf as [->|[->| ->]]).
    split_and!; try done; try lia.
    + by rewrite rewritten_ids.
    + eapply Forall_ids; [|exact Hbf]. by apply rewritten_ids.
Qed.

Lemma well_keyed_reachable (d : DB) : reachable js d → well_keyed d.
Proof.
  apply reachable_ind_effect.
  - unfold well_keyed; simpl. split_and!; try done; try apply NoDup_nil_2; constructor.
  - intros d0 d' H He. by apply (well_keyed_effect d0 d').
Qed.


(** *** Resource names *)

Lemma duplicates_false (id : Z) (l : list resource) (r o : resource) :
  duplicates id l = false → r ∈ l → o ∈ l → r_id r = id → r_id o ≠ id →
  kind_name r ≠ kind_name o.
Proof.
  unfold duplicates. intros Hd Hr Ho Hid Hne Hk.
  apply not_true_iff_false in Hd. apply Hd.
  apply existsb_exists. exists r. split; [by apply list_elem_of_In|].
  rewrite bool_decide_eq_true_2 by done. simpl.
  apply existsb_exists. exists o. split; [by apply list_elem_of_In|].
  rewrite bool_decide_eq_true_2 by done. simpl.
  unfold same_kind_name, kind_name in *. simplify_eq.
  by rewrite !bool_decide_eq_true_2.
Qed.

Lemma deactivated_kind_names (now id : Z) (l : list resource) :
  map kind_name (map (deactivated now id) l) = map kind_name l.
Proof.
  induction l as [|r l IH]; [done|]. simpl. rewrite IH. f_equal.
  unfold deactivated. by case_bool_decide.
Qed.

Lemma unique_names_effect (d d' : DB) :
  NoDup (map r_id (resources d)) →
  NoDup (map kind_name (resources d)) → effect js d d' →
  NoDup (map kind_name (resources d')).
Proof.
  intros Hids Hnd He.
  destruct He as [|row _ _ _ Hex|input now id l' Hup Hdup|now id|id
                  |row _ _ _ _ _ _ _|f id now Hf]; simpl; try done.
  - rewrite map_app. apply NoDup_app. split; [done|]. split; [|apply NoDup_singleton].
    intros k Hk Hin. simpl in Hin. apply list_elem_of_singleton in Hin. subst k.
    apply list_elem_of_fmap in Hk as (r & Hr & Hin).
    apply not_true_iff_false in Hex. apply Hex.
    apply existsb_exists. exists r. split; [by apply list_elem_of_In|].
    unfold same_kind_name, kind_name in *. simplify_eq.
    by rewrite !bool_decide_eq_true_2.
  - pose proof (patched_rows _ _ _ _ _ Hup) as Hrows.
    apply NoDup_alt. intros i j k Hi Hj.
    rewrite list_lookup_fmap in Hi, Hj.
    destruct (l' !! i) as [ri'|] eqn:Ei; [|done].
    destruct (l' !! j) as [rj'|] eqn:Ej; [|done]. simplify_eq/=.
    destruct (Forall2_lookup_r _ _ _ _ _ Hrows Ei) as (ri & Eri & Hii & _ & Hsi).
    destruct (Forall2_lookup_r _ _ _ _ _ Hrows Ej) as (rj & Erj & Hij & _ & Hsj).
    destruct (decide (r_id ri = id)) as [Hai|Hai],
             (decide (r_id rj = id)) as [Haj|Haj].
    + apply (proj1 (NoDup_alt _) Hids i j id);
        rewrite list_lookup_fmap; [by rewrite Eri; simpl; f_equal
                                  |by rewrite Erj; simpl; f_equal].
    + exfalso. apply (duplicates_false id l' ri' rj' Hdup); try done;
        try (by eapply list_elem_of_lookup_2); unfold kind_name; congruence.
    + exfalso. apply (duplicates_false id l' rj' ri' Hdup); try done;
        try (by eapply list_elem_of_lookup_2); unfold kind_name; congruence.
    + rewrite (Hsi Hai) in *. rewrite (Hsj Haj) in *.
      apply (proj1 (NoDup_alt _) Hnd i j (kind_name ri));
        rewrite list_lookup_fmap; [by rewrite Eri|].
      rewrite Erj. simpl. unfold kind_name. congruence.
  - by rewrite deactivated_kind_names.
  - by apply NoDup_map_filter.
Qed.

(** X5: no two stored resources share kind and name.  The invariant
    holds in every reachable state: creation refuses a taken (kind,
    name), and a PATCH that would rename a resource onto another one of
    its kind is refused as well. *)
Theorem resource_names_stay_unique (d : DB) :
  reachable js d →
  ∀ (i j : nat) (r1 r2 : resource),
    resources d !! i = Some r1 → resources d !! j = Some r2 →
    r_kind r1 = r_kind r2 → r_name r1 = r_name r2 → i = j.
Proof.
  intros Hd.
  assert (well_keyed d ∧ NoDup (map kind_name (resources d))) as [_ Hnd].
  { revert d Hd. apply reachable_ind_effect.
    - split; [|apply NoDup_nil_2].
      unfold well_keyed; simpl. split_and!; try done; try apply NoDup_nil_2; constructor.
    - intros d0 d' [Hwk Hnd] He. split; [by apply (well_keyed_effect d0 d')|].
      apply (unique_names_effect d0 d'); [|done|done].
      by destruct Hwk as (_ & _ & Hids & _). }
  intros i j r1 r2 H1 H2 Hk Hn.
  apply (proj1 (NoDup_alt _) Hnd i j (kind_name r1)); rewrite list_lookup_fmap.
  - by rewrite H1.
  - rewrite H2. simpl. unfold kind_name. by rewrite Hk, Hn.
Qed.

(** *** Kinds *)





(** *** Intervals and stamps of stored bookings *)

Lemma sound_bookings_effect (d d' : DB) :
  Forall (λ b, b_start_dt b < b_end_dt b ∧ stamps_agree b) (bookings d) →
  effect js d d' →
  Forall (λ b, b_start_dt b < b_end_dt b ∧ stamps_agree b) (bookings d').
Proof.
  intros Hb He.
  destruct He as [|row _ _ _ _|input now id l' _ _|now id|id
                  |row _ Hst Hlt _ (Hs & He & Hc) Hu _|f id now Hf]; simpl; try done.
  - by apply Forall_filter_keep.
  - apply Forall_app. split; [done|]. apply Forall_singleton. split; [done|].
    unfold stamps_agree. by rewrite Hst.
  - apply Forall_fmap. eapply Forall_impl; [exact Hb|].
    intros b [Hlt Hag]. simpl. unfold rewrite_booking.
    case_bool_decide; [|done].
    destruct Hf as [->|[->| ->]]; (split; [done|]); unfold stamps_agree; simpl; eauto.
Qed.

Lemma sound_bookings_reachable (d : DB) :
  reachable js d →
  Forall (λ b, b_start_dt b < b_end_dt b ∧ stamps_agree b) (bookings d).
Proof.
  revert d.
  apply (reachable_ind_effect
           (λ d, Forall (λ b, b_start_dt b < b_end_dt b ∧ stamps_agree b) (bookings d))).
  - constructor.
  - intros d0 d' IH He. by apply (sound_bookings_effect d0 d').
Qed.

(** X7: stored bookings are well formed.  In every reachable state each
    booking has its start before its end, a booking in REQUEST carries
    no transition stamp and was last updated when it was created, and a
    booking in ONGOING, SUCCESS or CANCEL carries the stamp of the
    transition that put it there. *)
Theorem stored_bookings_are_sound (d : DB) (b : booking) :
  reachable js d → b ∈ bookings d →
  b_start_dt b < b_end_dt b ∧ stamps_agree b.
Proof.
  intros Hd Hb.
  pose proof (sound_bookings_reachable d Hd) as H.
  rewrite Forall_forall in H. by apply H.
Qed.

(** *** Creation followed by a read *)

Lemma post_bookings_201 (req_body : gmap string json) (now : Z) (d : DB) :
  status <$> reply (post_bookings js req_body now (connect d)) = Some 201 →
  ∃ row,
    post_bookings js req_body now (connect d)
    = (inr (respond 201 (BookingRow row)),
       mkConn (mkDB (resources d) (bookings d ++ [row])
                    (resources_id_seq d) (bookings_id_seq d + 1))
              None [SELECT_bookings; INSERT_bookings])
    ∧ b_id row = bookings_id_seq d ∧ b_status row = REQUEST.
Proof.
  unfold post_bookings, select_conflict, insert_booking, query, try_catch, connect,
    reply, mbind, M_bind, mret, M_ret.
  destruct (negb _ || negb _ || negb _ || negb _ || negb _); [done|].
  destruct (new_Date js _) as [start|]; [|done].
  destruct (new_Date js _) as [end_|]; [|done].
  case_bool_decide as Hle; [done|].
  cbn -[pg_int pg_text or_null ToNumber].
  destruct (pg_int_of_num _) as [e|rid]; [done|].
  cbn -[pg_int pg_text or_null ToNumber].
  destruct (existsb _ _) eqn:Hex; [done|].
  cbn -[pg_int pg_text or_null ToNumber].
  destruct (pg_int js _) as [e|q]; [done|].
  destruct (pg_text _) as [n|]; [|done].
  cbn. intros _. by eexists.
Qed.


(** X8: a created booking can be read back and addressed.  When booking
    creation answers 201 in a reachable state, the returned row carries
    an id no stored booking has, [GET /api/bookings] then lists the old
    rows and the new one (in an order the model leaves open), and the
    new id selects exactly the new row. *)
Theorem created_booking_is_listed
    (session : option user) (req_body : gmap string json) (now now' : Z) (d : DB) :
  reachable js d →
  status <$> reply (serve js session (PostBookings req_body) now d) = Some 201 →
  ∃ row rows,
    reply (serve js session (PostBookings req_body) now d)
      = Some (respond 201 (BookingRow row))
    ∧ Forall (λ b, b_id b ≠ b_id row) (bookings d)
    ∧ reply (serve js session GetBookings now'
               (after (serve js session (PostBookings req_body) now d)))
      = Some (respond 200 (BookingRows rows))
    ∧ rows ≡ₚ row :: bookings d
    ∧ filter (λ b, b_id b = b_id row)
        (bookings (after (serve js session (PostBookings req_body) now d)))
      = [row].
Proof.
  intros Hd H201. unfold serve, app in *.
  destruct (post_bookings_201 req_body now d H201) as (row & -> & Hid & _).
  destruct (well_keyed_reachable d Hd) as (_ & _ & _ & _ & _ & Hbf).
  assert (Forall (λ b, b_id b ≠ b_id row) (bookings d)) as Hfresh.
  { eapply Forall_impl; [exact Hbf|]. simpl. intros b Hb. lia. }
  exists row, (bookings d ++ [row])%list.
  split; [done|]. split; [done|]. split; [done|].
  split; [symmetry; apply Permutation_cons_append|].
  unfold after; simpl. rewrite filter_app, filter_cons_True, filter_nil by done.
  assert (filter (λ b, b_id b = b_id row) (bookings d) = []) as ->; [|done].
  apply filter_absent. by apply Forall_forall.
Qed.


(** *** Transitions one after the other *)

Lemma move_run (session : option user) (m : move) (id now : Z) (d : DB) :
  authorized session →
  serve js session (move_request m id) now d
  = transition (move_change m now) (NInt id) (connect d).
Proof.
  intros Hauth. unfold serve, app.
  destruct m; simpl; by rewrite requireAuth_pass.
Qed.

Lemma rewrite_booking_twice (f g : booking → booking) (id : Z) (l : list booking) :
  (∀ b, b_id (f b) = b_id b) →
  map (rewrite_booking g id) (map (rewrite_booking f id) l)
  = map (rewrite_booking (g ∘ f) id) l.
Proof.
  intros Hf. rewrite map_map. apply map_ext. intros b.
  unfold rewrite_booking at 2 3. case_bool_decide as Hid.
  - unfold rewrite_booking. by rewrite bool_decide_eq_true_2 by (by rewrite Hf).
  - unfold rewrite_booking. by rewrite bool_decide_eq_false_2.
Qed.

(** X10: transitions compose without regard to order.  For a session
    the guard lets through, any transition followed by any transition
    on the same booking id rewrites the addressed rows by both SET
    lists in turn and nothing else: the status is the one the second
    transition sets, the stamp of the first is kept (unless the second
    writes the same stamp), so that for instance a booking canceled
    after it was finished carries both [ended_at] and [canceled_at]. *)
Theorem transitions_accumulate
    (session : option user) (m1 m2 : move) (id t1 t2 : Z) (d : DB) :
  authorized session →
  after (serve js session (move_request m2 id) t2
           (after (serve js session (move_request m1 id) t1 d)))
    = set_bookings
        (map (rewrite_booking (move_change m2 t2 ∘ move_change m1 t1) id) (bookings d)) d
  ∧ ∀ b,
      b_status (move_change m2 t2 (move_change m1 t1 b)) = move_status m2
      ∧ move_stamp m2 (move_change m2 t2 (move_change m1 t1 b)) = Some t2
      ∧ move_stamp m1 (move_change m2 t2 (move_change m1 t1 b))
        = Some (if decide (m1 = m2) then t2 else t1)
      ∧ b_updated_at (move_change m2 t2 (move_change m1 t1 b)) = t2
      ∧ b_created_at (move_change m2 t2 (move_change m1 t1 b)) = b_created_at b
      ∧ b_start_dt (move_change m2 t2 (move_change m1 t1 b)) = b_start_dt b
      ∧ b_end_dt (move_change m2 t2 (move_change m1 t1 b)) = b_end_dt b.
Proof.
  intros Hauth. split.
  - rewrite !move_run by done. rewrite !transition_run. unfold after. simpl.
    rewrite rewrite_booking_twice by (by destruct m1).
    by destruct d.
  - intros b. by destruct m1, m2.
Qed.

(** *** After a hard delete *)


(** *** Renaming onto a taken name *)

(** X12: a PATCH cannot give a resource the name of another resource of
    its kind.  For a session the guard lets through, when the body
    holds neither quantity nor status and names, for the resource with
    id [id], the name of a stored resource of the same kind and another
    id, the answer is 409 and nothing changes. *)
Theorem patch_refuses_taken_name
    (session : option user) (id now : Z) (req_body : gmap string json) (d : DB)
    (r o : resource) :
  authorized session →
  r ∈ resources d → r_id r = id →
  o ∈ resources d → r_id o ≠ id → r_kind o = r_kind r →
  req_body !! "name" = Some (JStr (r_name o)) →
  req_body !! "quantity" = None → req_body !! "status" = None →
  reply (serve js session (PatchResource (NInt id) req_body) now d)
    = Some (respond 409 (Error "Duplicate resource name for this kind"))
  ∧ after (serve js session (PatchResource (NInt id) req_body) now d) = d.
Proof.
  intros Hauth Hr Hid Ho Hoid Hkind Hname Hq Hst.
  assert (serve js session (PatchResource (NInt id) req_body) now d
          = patch_resource js (NInt id) req_body now (connect d)) as ->.
  { unfold serve, app. by rewrite requireAuth_pass. }
  assert (patch_input req_body !! "name" = Some (JStr (r_name o))) as Hin
    by (by rewrite (patch_input_lookup _ "name" allowed_name)).
  assert (patch_input req_body !! "quantity" = None) as Hiq
    by (by rewrite (patch_input_lookup _ "quantity" allowed_quantity)).
  assert (patch_input req_body !! "status" = None) as His
    by (by rewrite (patch_input_lookup _ "status" allowed_status)).
  assert (size (patch_input req_body) ≠ 0%nat) as Hsize.
  { intros Hz. apply map_size_empty_iff in Hz. rewrite Hz in Hin.
    by rewrite lookup_empty in Hin. }
  unfold patch_resource, update_resource, query, try_catch, connect, reply, after,
    mbind, M_bind, mret, M_ret.
  rewrite bool_decide_eq_false_2 by done.
  rewrite Hiq, His. cbn -[set_columns update_where_id duplicates patch_input].
  destruct (update_where_id (set_columns js (patch_input req_body) now) id (resources d))
    as [e|l'] eqn:Hup.
  { exfalso. clear -Hup Hin Hiq His.
    revert Hup. generalize (resources d). intros l.
    induction l as [|x l IH]; simpl; [done|].
    case_bool_decide.
    - unfold set_columns at 1. rewrite Hin, Hiq, His. simpl.
      destruct (update_where_id _ id l); [by apply IH|done].
    - destruct (update_where_id _ id l); [by apply IH|done]. }
  assert (duplicates id l' = true) as ->; [|done].
  pose proof (update_where_id_rows _ _ _ _ Hup) as Hrows.
  apply list_elem_of_lookup in Hr as [i Hi], Ho as [j Hj].
  destruct (Forall2_lookup_l _ _ _ _ _ Hrows Hi) as (r' & Hr' & [[Hne _]|[_ Hset]]);
    [done|].
  destruct (Forall2_lookup_l _ _ _ _ _ Hrows Hj) as (o' & Ho' & [[_ ->]|[Heq _]]);
    [|done].
  unfold duplicates. apply existsb_exists. exists r'.
  split; [apply list_elem_of_In; by eapply list_elem_of_lookup_2|].
  assert (r_id r' = id ∧ r_kind r' = r_kind r ∧ r_name r' = r_name o)
    as (Hid' & Hk' & Hn').
  { revert Hset. unfold set_columns. rewrite Hin, Hiq, His. simpl.
    intros ?; simplify_eq/=. done. }
  rewrite bool_decide_eq_true_2 by done. simpl.
  apply existsb_exists. exists o.
  split; [apply list_elem_of_In; by eapply list_elem_of_lookup_2|].
  rewrite bool_decide_eq_true_2 by done. simpl.
  unfold same_kind_name. rewrite !bool_decide_eq_true_2; [done|congruence|congruence].
Qed.

(** *** The two delete flags *)

(** X13: a non-empty [hard] parameter decides the mode alone.  The
    handler reads [req.query.hard || req.query.mode]: when [hard] is a
    non-empty string [mode] is never looked at, so [hard=0&mode=hard]
    is a soft delete; an empty or absent [hard] leaves the decision to
    [mode]. *)
Theorem hard_parameter_shadows_mode
    (session : option user) (id : jsnum) (s : string) (mode : option string)
    (now : Z) (d : DB) :
  s ≠ "" →
  serve js session (DeleteResource id (Some s) mode) now d
    = serve js session (DeleteResource id (Some s) None) now d
  ∧ serve js session (DeleteResource id (Some "") mode) now d
    = serve js session (DeleteResource id mode None) now d
  ∧ serve js session (DeleteResource id None mode) now d
    = serve js session (DeleteResource id mode None) now d.
Proof.
  intros Hs.
  assert (isHard (Some s) mode = isHard (Some s) None) as H1.
  { assert (truthy (JStr <$> Some s) = true) as Ht
      by (by apply bool_decide_eq_true_2).
    unfold isHard, or_else. by rewrite !Ht. }
  assert (isHard None mode = isHard mode None) as H3.
  { destruct mode as [m|]; [|done].
    destruct (decide (m = "")) as [->|Hm]; [done|].
    assert (truthy (JStr <$> Some m) = true) as Ht
      by (by apply bool_decide_eq_true_2).
    unfold isHard, or_else. change (truthy (JStr <$> None)) with false.
    cbv iota. by rewrite !Ht. }
  assert (isHard (Some "") mode = isHard mode None) as H2.
  { rewrite <- H3. done. }
  unfold serve, app, delete_resource. destruct id as [i|neg]; [|done].
  by rewrite H1, H2, H3.
Qed.

(** *** The CORS origin check *)

Lemma split_comma_nonempty (s : string) : split_comma s ≠ [].
Proof.
  destruct s as [|c s]; simpl; [done|].
  destruct (Ascii.eqb c ","); [done|]. by destruct (split_comma s).
Qed.

Lemma split_comma_free (s : string) : has_comma s = false → split_comma s = [s].
Proof.
  induction s as [|c s IH]; simpl; [done|].
  destruct (Ascii.eqb c ","); simpl; [done|]. intros H. by rewrite IH.
Qed.

Lemma split_comma_append (h t : string) :
  has_comma h = false → split_comma (h +:+ "," +:+ t) = h :: split_comma t.
Proof.
  induction h as [|c h IH]; simpl; [done|].
  destruct (Ascii.eqb c ","); simpl; [done|]. intros H.
  change (String.append h (String "," t)) with (h +:+ "," +:+ t).
  by rewrite IH.
Qed.

Lemma split_join (l : list string) :
  l ≠ [] → Forall (λ h, has_comma h = false) l → split_comma (join_comma l) = l.
Proof.
  induction l as [|h l IH]; [done|]. intros _ Hall.
  apply Forall_cons in Hall as [Hh Hl].
  destruct l as [|h' l]; [by apply split_comma_free|].
  change (join_comma (h :: h' :: l)) with (h +:+ "," +:+ join_comma (h' :: l)).
  rewrite split_comma_append by done. by rewrite IH.
Qed.

Lemma split_comma_pieces (s : string) :
  Forall (λ h, has_comma h = false) (split_comma s).
Proof.
  induction s as [|c s IH]; simpl; [by repeat constructor|].
  destruct (Ascii.eqb c ",") eqn:Hc; [by constructor|].
  destruct (split_comma s) as [|h t]; [by repeat constructor; simpl; rewrite Hc|].
  apply Forall_cons in IH as [Hh Ht]. constructor; [|done].
  simpl. by rewrite Hc.
Qed.

(** X14: the origin list round-trips.  When [ORIGIN_LIST] is the
    comma-joined list of hosts none of which holds a comma, [ALLOWED] is
    that list and the origin callback accepts an Origin header exactly
    when the header is one of the hosts, compared as written (no
    trimming, no case folding). *)
Theorem cors_allows_the_listed_origins (hosts : list string) (origin : string) :
  Forall (λ h, has_comma h = false) hosts →
  join_comma hosts ≠ "" → origin ≠ "" →
  ALLOWED (Some (join_comma hosts)) = hosts
  ∧ (cors_origin (Some (join_comma hosts)) (Some origin) = true ↔ origin ∈ hosts).
Proof.
  intros Hall Hjoin Ho.
  assert (hosts ≠ []) as Hne by (by intros ->).
  assert (ALLOWED (Some (join_comma hosts)) = hosts) as HA.
  { unfold ALLOWED, or_else.
    assert (truthy (JStr <$> Some (join_comma hosts)) = true) as ->
      by (by apply bool_decide_eq_true_2).
    simpl. by apply split_join. }
  split; [done|]. unfold cors_origin.
  assert (truthy (JStr <$> Some origin) = true) as ->
    by (by apply bool_decide_eq_true_2).
  simpl. by rewrite HA, bool_decide_eq_true.
Qed.

(** X15: what the origin callback accepts regardless of the list.  A
    request without an Origin header (or with an empty one) is always
    accepted; an Origin holding a comma never is; and when
    [ORIGIN_LIST] is unset or empty exactly the two local Vite hosts
    are. *)
Theorem cors_fixed_cases (ORIGIN_LIST : option string) (origin : string) :
  cors_origin ORIGIN_LIST None = true
  ∧ cors_origin ORIGIN_LIST (Some "") = true
  ∧ (has_comma origin = true → cors_origin ORIGIN_LIST (Some origin) = false)
  ∧ (origin ≠ "" →
     (cors_origin None (Some origin) = true
      ↔ origin = "http://localhost:5173" ∨ origin = "http://127.0.0.1:5173")
     ∧ cors_origin (Some "") (Some origin) = cors_origin None (Some origin)).
Proof.
  split; [done|]. split; [done|]. split.
  - intros Hc. unfold cors_origin.
    destruct (truthy (JStr <$> Some origin)) eqn:Ht.
    + simpl. apply bool_decide_eq_false_2. intros Hin.
      pose proof (split_comma_pieces
        (default "" (or_else ORIGIN_LIST
           (Some "http://localhost:5173,http://127.0.0.1:5173")))) as Hp.
      rewrite Forall_forall in Hp. specialize (Hp origin Hin). congruence.
    + exfalso. apply bool_decide_eq_false in Ht. apply Ht.
      intros ->. done.
  - intros Ho.
    assert (ALLOWED None = ["http://localhost:5173"; "http://127.0.0.1:5173"]) as HA
      by (vm_compute; reflexivity).
    assert (ALLOWED (Some "") = ALLOWED None) as HE by (vm_compute; reflexivity).
    unfold cors_origin.
    assert (truthy (JStr <$> Some origin) = true) as ->
      by (by apply bool_decide_eq_true_2).
    cbn [negb default]. rewrite HE. split; [|reflexivity].
    rewrite bool_decide_eq_true, HA.
    rewrite !elem_of_cons, elem_of_nil. tauto.
Qed.

(** *** Accounts: login *)

Lemma credentials_username (username password : string) :
  credentials username password !! "username" = Some (JStr username).
Proof. unfold credentials. by simplify_map_eq. Qed.

Lemma credentials_password (username password : string) :
  credentials username password !! "password" = Some (JStr password).
Proof. unfold credentials. by simplify_map_eq. Qed.

Lemma filter_by_username (username : string) (users : list admin_user) :
  filter (λ a, Some (au_username a) = pg_text (Some (JStr username))) users
  = filter (λ a, au_username a = username) users.
Proof.
  induction users as [|a l IH]; [done|].
  destruct (decide (au_username a = username)) as [E|E].
  - rewrite !filter_cons_True; [by rewrite IH|done|]. simpl. by rewrite E.
  - rewrite !filter_cons_False; [done|done|]. simpl. congruence.
Qed.

(** Login with a user name and a password, both non-empty strings. *)
Lemma login_run (bc : bcryptjs) (username password : string)
    (session : option user) (users : list admin_user) :
  username ≠ "" → password ≠ "" →
  login bc (credentials username password) session users
  = match filter (λ a, au_username a = username) users with
    | [] => mkAuthOutcome (auth_respond 401 (AuthError "Invalid credentials"))
              session users
    | a :: _ =>
        if bcrypt_compare bc password (au_password_hash a)
        then mkAuthOutcome
               (auth_respond 200 (AuthUser (mkUser (au_id a) (au_username a) (au_role a))))
               (Some (mkUser (au_id a) (au_username a) (au_role a))) users
        else mkAuthOutcome (auth_respond 401 (AuthError "Invalid credentials"))
               session users
    end.
Proof.
  intros Hu Hp. unfold login.
  rewrite credentials_username, credentials_password.
  assert (truthy (Some (JStr username)) = true) as ->
    by (by apply bool_decide_eq_true_2).
  assert (truthy (Some (JStr password)) = true) as ->
    by (by apply bool_decide_eq_true_2).
  cbn [negb orb]. rewrite filter_by_username.
  destruct (filter _ users) as [|a l]; [done|].
  unfold compare_js. by destruct (bcrypt_compare bc password _).
Qed.

(** X16: a failed login tells nothing and changes nothing.  An unknown
    user name and a wrong password for a known one get the same answer,
    401 "Invalid credentials", and leave the session as it was; login,
    whatever its outcome, never writes to the accounts table. *)
Theorem failed_login_gives_nothing_away
    (bc : bcryptjs) (username password : string)
    (session : option user) (users : list admin_user) :
  username ≠ "" → password ≠ "" →
  (∀ a, a ∈ users → au_username a ≠ username)
  ∨ (∃ a, head (filter (λ a, au_username a = username) users) = Some a
          ∧ bcrypt_compare bc password (au_password_hash a) = false) →
  login bc (credentials username password) session users
    = mkAuthOutcome (auth_respond 401 (AuthError "Invalid credentials")) session users
  ∧ ∀ req_body session', users_after (login bc req_body session' users) = users.
Proof.
  intros Hu Hp Hcase. split.
  - rewrite login_run by done.
    destruct Hcase as [Hnone|(a & Ha & Hbad)].
    + destruct (filter _ users) as [|a l] eqn:El; [done|].
      assert (a ∈ filter (λ a, au_username a = username) users) as Hin
        by (rewrite El; left).
      apply list_elem_of_filter in Hin as [Hn Hin]. by destruct (Hnone a Hin).
    + destruct (filter _ users) as [|a0 l]; simplify_eq/=. by rewrite Hbad.
  - intros req_body session'. unfold login. by repeat case_match.
Qed.

(** X17: a successful login opens a session with the stored role.  With
    the right password for the first account of that name, the session
    holds the account's id, name and role, [GET /api/auth/me] returns
    them, and the role decides what follows: an account whose role is
    neither ADMIN nor STAFF is logged in and still answered 403, without
    effect, by every guarded route. *)
Theorem login_opens_a_session_with_the_stored_role
    (bc : bcryptjs) (username password : string)
    (session : option user) (users : list admin_user) (a : admin_user)
    (req : request) (now : Z) (d : DB) :
  username ≠ "" → password ≠ "" →
  head (filter (λ a, au_username a = username) users) = Some a →
  bcrypt_compare bc password (au_password_hash a) = true →
  login bc (credentials username password) session users
    = mkAuthOutcome
        (auth_respond 200 (AuthUser (mkUser (au_id a) username (au_role a))))
        (Some (mkUser (au_id a) username (au_role a))) users
  ∧ auth_reply (me (session_after (login bc (credentials username password) session users))
                  users)
    = auth_respond 200 (AuthUser (mkUser (au_id a) username (au_role a)))
  ∧ (au_role a ∈ ADMIN_STAFF →
     authorized (session_after (login bc (credentials username password) session users)))
  ∧ (au_role a ∉ ADMIN_STAFF → behind_guard req = true →
     reply (serve js (session_after (login bc (credentials username password) session users))
              req now d)
       = Some (respond 403 (Error "Forbidden: Insufficient permissions"))
     ∧ after (serve js (session_after (login bc (credentials username password)
                                         session users)) req now d) = d).
Proof.
  intros Hu Hp Ha Hok.
  assert (au_username a = username) as Hname.
  { destruct (filter _ users) as [|a0 l] eqn:El; simplify_eq/=.
    assert (a ∈ filter (λ a, au_username a = username) users) as Hin
      by (rewrite El; left).
    by apply list_elem_of_filter in Hin as [? _]. }
  rewrite login_run by done.
  destruct (filter _ users) as [|a0 l]; simplify_eq/=. rewrite Hok. simpl.
  split; [done|]. split; [done|]. split.
  - intros Hrole. eexists. split; [done|done].
  - intros Hrole Hg. unfold serve, app.
    destruct req; simpl in Hg; try done; unfold requireAuth; simpl;
      by rewrite bool_decide_eq_false_2.
Qed.

(** *** Accounts: password change and seeding *)

Lemma rehashed_columns (newHash : string) (now id : Z) (users : list admin_user) :
  map au_id (map (rehashed newHash now id) users) = map au_id users
  ∧ map au_username (map (rehashed newHash now id) users) = map au_username users
  ∧ map au_role (map (rehashed newHash now id) users) = map au_role users.
Proof.
  induction users as [|a l (IH1 & IH2 & IH3)]; [done|].
  simpl. rewrite IH1, IH2, IH3. unfold rehashed. by case_bool_decide.
Qed.

(** The outcome of a password change: either an error that leaves the
    table alone, or the new hash written to the rows of the session's
    account. *)
Lemma change_password_outcome (bc : bcryptjs) (req_body : gmap string json)
    (session : option user) (salt : string) (now : Z) (users : list admin_user) :
  (auth_status (auth_reply (change_password bc req_body session salt now users)) ≠ 200
   ∧ users_after (change_password bc req_body session salt now users) = users)
  ∨ (∃ u p,
       session = Some u ∧ role u ∈ ADMIN_STAFF
       ∧ req_body !! "newPassword" = Some (JStr p) ∧ (6 ≤ String.length p)%nat
       ∧ change_password bc req_body session salt now users
         = mkAuthOutcome
             (auth_respond 200 (AuthMessage "Password changed successfully"))
             session
             (map (rehashed (bcrypt_hash bc p salt) now (user_id u)) users)).
Proof.
  unfold change_password. destruct session as [u|]; [|by left].
  case_bool_decide as Hrole; [|by left]. cbn [negb].
  destruct (negb _ || negb _); [by left|].
  destruct (shorter_than_6 _) eqn:Hlen; [by left|].
  destruct (compare_js bc _ _) as [[]|]; [|by left..].
  destruct (req_body !! "newPassword") as [[| |n|p]|] eqn:Hnew; try (by left).
  right. exists u, p. split; [done|]. split; [done|]. split; [done|].
  split; [|done]. simpl in Hlen. apply bool_decide_eq_false in Hlen. lia.
Qed.

(** X18: a password change touches one hash.  Whatever the request, the
    session stays as it is, and in the accounts table ids, user names
    and roles stay as they are and the rows of other accounts are
    untouched; unless the answer is 200 nothing at all is written.  A
    new password shorter than six characters is answered 400. *)
Theorem change_password_touches_one_hash
    (bc : bcryptjs) (req_body : gmap string json) (u : user)
    (salt : string) (now : Z) (users : list admin_user) :
  role u ∈ ADMIN_STAFF →
  session_after (change_password bc req_body (Some u) salt now users) = Some u
  ∧ map au_id (users_after (change_password bc req_body (Some u) salt now users))
    = map au_id users
  ∧ map au_username (users_after (change_password bc req_body (Some u) salt now users))
    = map au_username users
  ∧ map au_role (users_after (change_password bc req_body (Some u) salt now users))
    = map au_role users
  ∧ (∀ a, a ∈ users → au_id a ≠ user_id u →
       a ∈ users_after (change_password bc req_body (Some u) salt now users))
  ∧ (auth_status (auth_reply (change_password bc req_body (Some u) salt now users)) ≠ 200 →
     users_after (change_password bc req_body (Some u) salt now users) = users)
  ∧ (∀ p, req_body !! "newPassword" = Some (JStr p) → (String.length p < 6)%nat →
       truthy (req_body !! "currentPassword") = true →
       auth_status (auth_reply (change_password bc req_body (Some u) salt now users)) = 400).
Proof.
  intros Hrole.
  destruct (change_password_outcome bc req_body (Some u) salt now users)
    as [[Hne Hsame]|(u' & p & Hu & _ & Hnew & Hlen & Hrun)].
  - rewrite Hsame. split.
    { unfold change_password. rewrite bool_decide_eq_true_2 by done. cbn [negb].
      by repeat case_match. }
    split; [done|]. split; [done|]. split; [done|]. split; [done|]. split; [done|].
    intros p Hp Hlen Hcur. unfold change_password.
    rewrite bool_decide_eq_true_2 by done. cbn [negb]. rewrite Hp, Hcur.
    destruct p as [|c p]; [done|]. cbn [truthy negb orb].
    rewrite bool_decide_eq_true_2 by done. cbn [negb orb].
    unfold shorter_than_6. by rewrite bool_decide_eq_true_2.
  - simplify_eq. rewrite Hrun. simpl.
    destruct (rehashed_columns (bcrypt_hash bc p salt) now (user_id u') users)
      as (H1 & H2 & H3).
    split; [done|]. split; [done|]. split; [done|]. split; [done|]. split.
    { intros a Ha Hid. apply list_elem_of_fmap. exists a. split; [|done].
      unfold rehashed. by rewrite bool_decide_eq_false_2. }
    split; [done|]. intros p' Hp' Hlen'. simplify_eq. lia.
Qed.



(** X20: seeding lets the administrator in and leaves the rest alone.
    After [seed] the account "admin" logs in with "admin123" (if bcrypt
    accepts the password a hash was made from); the other accounts are
    untouched; an account "admin" that was already there keeps its id
    and its role, whatever it is: only its hash is reset.  Seeding a
    second time adds no row. *)
Theorem seed_resets_the_admin_password
    (bc : bcryptjs) (salt salt' : string) (now now' new_id new_id' : Z)
    (users : list admin_user) (session : option user) :
  bcrypt_accepts_own bc →
  (∃ a, a ∈ seed bc salt now new_id users ∧ au_username a = "admin"
        ∧ login bc (credentials "admin" "admin123") session
            (seed bc salt now new_id users)
          = mkAuthOutcome
              (auth_respond 200 (AuthUser (mkUser (au_id a) "admin" (au_role a))))
              (Some (mkUser (au_id a) "admin" (au_role a)))
              (seed bc salt now new_id users))
  ∧ (∀ a, a ∈ users → au_username a ≠ "admin" → a ∈ seed bc salt now new_id users)
  ∧ (∀ a, a ∈ users → au_username a = "admin" →
       mkAdminUser (au_id a) "admin" (bcrypt_hash bc "admin123" salt) (au_role a)
         (Some now) ∈ seed bc salt now new_id users)
  ∧ ((∀ a, a ∈ users → au_username a ≠ "admin") →
       seed bc salt now new_id users
       = (users ++ [mkAdminUser new_id "admin" (bcrypt_hash bc "admin123" salt)
                      "ADMIN" None])%list)
  ∧ length (seed bc salt' now' new_id' (seed bc salt now new_id users))
    = length (seed bc salt now new_id users).
Proof.
  intros Hown.
  assert (∀ s n i l,
            existsb (λ a, bool_decide (au_username a = "admin")) l = true →
            seed bc s n i l
            = map (λ a, if bool_decide (au_username a = "admin")
                        then mkAdminUser (au_id a) (au_username a)
                               (bcrypt_hash bc "admin123" s) (au_role a) (Some n)
                        else a) l) as Hupd.
  { intros s n i l Hex. unfold seed. by rewrite Hex. }
  assert (∀ s n i l,
            existsb (λ a, bool_decide (au_username a = "admin")) l = false →
            seed bc s n i l
            = (l ++ [mkAdminUser i "admin" (bcrypt_hash bc "admin123" s) "ADMIN" None])%list)
    as Hins.
  { intros s n i l Hex. unfold seed. by rewrite Hex. }
  assert (existsb (λ a, bool_decide (au_username a = "admin"))
            (seed bc salt now new_id users) = true) as Hafter.
  { destruct (existsb (λ a, bool_decide (au_username a = "admin")) users) eqn:Hex.
    - rewrite Hupd by done. apply existsb_exists.
      apply existsb_exists in Hex as (a & Hin & Ha).
      apply bool_decide_eq_true in Ha.
      exists (mkAdminUser (au_id a) (au_username a) (bcrypt_hash bc "admin123" salt)
                (au_role a) (Some now)).
      split; [|by apply bool_decide_eq_true_2].
      apply list_elem_of_In, list_elem_of_fmap. exists a.
      split; [by rewrite bool_decide_eq_true_2|by apply list_elem_of_In].
    - rewrite Hins by done. apply existsb_exists. eexists.
      split; [apply in_or_app; right; left; reflexivity|done]. }
  assert (Forall (λ a, au_username a = "admin" →
                       au_password_hash a = bcrypt_hash bc "admin123" salt)
            (seed bc salt now new_id users)) as Hhash.
  { destruct (existsb (λ a, bool_decide (au_username a = "admin")) users) eqn:Hex.
    - rewrite Hupd by done. apply Forall_fmap, Forall_forall. intros a _. simpl.
      case_bool_decide; [done|]. intros. done.
    - rewrite Hins by done. apply Forall_app. split; [|by apply Forall_singleton].
      apply Forall_forall. intros a Ha Hn. exfalso.
      apply not_true_iff_false in Hex. apply Hex. apply existsb_exists.
      exists a. split; [by apply list_elem_of_In|by apply bool_decide_eq_true_2]. }
  split; [|split; [|split; [|split]]].
  - rewrite login_run by done.
    destruct (filter (λ a, au_username a = "admin") (seed bc salt now new_id users))
      as [|a l] eqn:El.
    + exfalso. apply existsb_exists in Hafter as (a & Hin & Ha).
      apply bool_decide_eq_true in Ha. apply list_elem_of_In in Hin.
      assert (a ∈ filter (λ a, au_username a = "admin") (seed bc salt now new_id users))
        as Hf by (by apply list_elem_of_filter).
      rewrite El in Hf. by apply elem_of_nil in Hf.
    + assert (a ∈ filter (λ a, au_username a = "admin") (seed bc salt now new_id users))
        as Hf by (rewrite El; left).
      apply list_elem_of_filter in Hf as [Hn Hin].
      exists a. split; [done|]. split; [done|].
      rewrite Forall_forall in Hhash. rewrite (Hhash a Hin Hn), Hown, Hn. done.
  - intros a Ha Hn.
    destruct (existsb (λ a, bool_decide (au_username a = "admin")) users) eqn:Hex.
    + rewrite Hupd by done. apply list_elem_of_fmap. exists a.
      split; [by rewrite bool_decide_eq_false_2|done].
    + rewrite Hins by done. apply elem_of_app. by left.
  - intros a Ha Hn.
    assert (existsb (λ a, bool_decide (au_username a = "admin")) users = true) as Hex.
    { apply existsb_exists. exists a.
      split; [by apply list_elem_of_In|by apply bool_decide_eq_true_2]. }
    rewrite Hupd by done. apply list_elem_of_fmap. exists a.
    split; [|done]. rewrite bool_decide_eq_true_2 by done. by rewrite Hn.
  - intros Hnone. apply Hins. apply not_true_iff_false. intros Hex.
    apply existsb_exists in Hex as (a & Hin & Ha).
    apply bool_decide_eq_true in Ha. apply list_elem_of_In in Hin.
    by apply (Hnone a).
  - rewrite (Hupd salt' now' new_id' _ Hafter). by rewrite length_map.
Qed.

End Properties.

(** A request from eleven back to ten. *)
Lemma post_bookings_rejects_empty_interval_witness :
  status <$> reply (serve example_runtime None (PostBookings (room_request eleven ten)) 0 empty_db)
    = Some 400
  ∧ after (serve example_runtime None (PostBookings (room_request eleven ten)) 0 empty_db)
    = empty_db
  ∧ statements (serve example_runtime None (PostBookings (room_request eleven ten)) 0 empty_db)
    = [].
Proof.
  apply (post_bookings_rejects_empty_interval example_runtime None
           (room_request eleven ten) 0 empty_db 1735729200000 1735725600000);
    [reflexivity | reflexivity | lia].
Defined.

(** C4, as stated, fails on booking creation: with no session at all the
    request is answered 201 and a row is inserted. *)
Lemma post_bookings_needs_no_session :
  status <$> reply (serve example_runtime None (PostBookings (room_request ten eleven)) 0 empty_db)
    = Some 201
  ∧ map b_status (bookings (after (serve example_runtime None
        (PostBookings (room_request ten eleven)) 0 empty_db))) = [REQUEST].
Proof. split; reflexivity. Qed.

(** The guard at work: no session, and a session whose role is GUEST. *)
Example guard_turns_away :
  reply (serve example_runtime None (PostResources room_a) 0 empty_db)
    = Some (respond 401 (Error "Unauthorized: Please login"))
  ∧ reply (serve example_runtime guest (PostBookingStart (NInt 1)) 0 booked_once)
    = Some (respond 403 (Error "Forbidden: Insufficient permissions"))
  ∧ after (serve example_runtime guest (PostBookingStart (NInt 1)) 0 booked_once)
    = booked_once.
Proof. repeat split; vm_compute; reflexivity. Qed.




(** The administrator of the examples passes the guard. *)
Lemma admin_authorized : authorized admin.
Proof. eexists. split; [reflexivity|]. unfold ADMIN_STAFF. simpl. left. Defined.








(** C9, as stated, fails on [updated_at]: a PATCH that renames Room A
    also stamps the row's [updated_at], a column outside the allow-list,
    and a later PATCH of the quantity stamps it again. *)
Lemma patch_stamps_updated_at :
  map (λ r, (r_id r, r_name r, r_quantity r, r_updated_at r)) (resources one_room)
    = [(1, "Room A", Some 1, None)]
  ∧ map (λ r, (r_id r, r_name r, r_quantity r, r_updated_at r))
      (resources (after (serve example_runtime admin
         (PatchResource (NInt 1) {["name" := JStr "Room B"]}) 5 one_room)))
    = [(1, "Room B", Some 1, Some 5)]
  ∧ map (λ r, (r_id r, r_name r, r_quantity r, r_updated_at r))
      (resources (after (serve example_runtime admin
         (PatchResource (NInt 1) {["quantity" := JNum 3]}) 9
         (after (serve example_runtime admin
            (PatchResource (NInt 1) {["name" := JStr "Room B"]}) 5 one_room)))))
    = [(1, "Room B", Some 3, Some 9)].
Proof. repeat split; vm_compute; reflexivity. Qed.

(** A rename, a body that only names [kind], and a negative quantity. *)
Lemma patch_resource_frame_witness :
  bookings (after (serve example_runtime admin
     (PatchResource (NInt 1) {["name" := JStr "Room B"]}) 5 one_room_booked))
    = bookings one_room_booked
  ∧ status <$> reply (serve example_runtime admin
       (PatchResource (NInt 1) {["kind" := JStr "LAB"]}) 5 one_room_booked) = Some 400
  ∧ status <$> reply (serve example_runtime admin
       (PatchResource (NInt 1) {["quantity" := JNum (-1)]}) 5 one_room_booked) = Some 400.
Proof.
  split; [|split].
  - apply (patch_resource_frame example_runtime admin 1 5 {["name" := JStr "Room B"]}
             one_room_booked admin_authorized).
  - destruct (patch_resource_frame example_runtime admin 1 5 {["kind" := JStr "LAB"]}
                one_room_booked admin_authorized) as (_ & _ & Hrej & _).
    apply Hrej. left. intros k Hk. apply lookup_singleton_ne.
    intros <-. unfold allowed in Hk.
    repeat (apply elem_of_cons in Hk as [Hk|Hk]; [discriminate Hk|]).
    by apply elem_of_nil in Hk.
  - destruct (patch_resource_frame example_runtime admin 1 5 {["quantity" := JNum (-1)]}
                one_room_booked admin_authorized) as (_ & _ & Hrej & _).
    apply Hrej. right. right. left. exists (-1). split; [reflexivity|lia].
Defined.


(** The states of the examples are reachable. *)
Lemma one_room_reachable : reachable example_runtime one_room.
Proof. apply reachable_serve, reachable_empty. Defined.

Lemma two_rooms_reachable : reachable example_runtime two_rooms.
Proof. apply reachable_serve, one_room_reachable. Defined.

Lemma booked_once_reachable : reachable example_runtime booked_once.
Proof. apply reachable_serve, reachable_empty. Defined.

Lemma restarted_reachable : reachable example_runtime restarted.
Proof. do 3 apply reachable_serve. apply booked_once_reachable. Defined.

(** The stand-in for bcryptjs accepts the password a hash was made from
    and no other. *)
Lemma example_bcrypt_accepts_own : bcrypt_accepts_own example_bcrypt.
Proof. intros p salt. simpl. by apply bool_decide_eq_true_2. Defined.





(** Room A and Room B. *)
Lemma resource_names_stay_unique_witness :
  NoDup (map kind_name (resources two_rooms)).
Proof.
  apply NoDup_alt. intros i j x Hi Hj.
  rewrite list_lookup_fmap in Hi. rewrite list_lookup_fmap in Hj.
  destruct (resources two_rooms !! i) as [r1|] eqn:E1; [|discriminate Hi].
  destruct (resources two_rooms !! j) as [r2|] eqn:E2; [|discriminate Hj].
  simpl in Hi, Hj. injection Hi as Hi. injection Hj as Hj.
  apply (resource_names_stay_unique example_runtime two_rooms two_rooms_reachable
           i j r1 r2 E1 E2).
  - unfold kind_name in *. congruence.
  - unfold kind_name in *. congruence.
Defined.


(** Booking 1 after cancel and start: ONGOING, with its start stamp. *)
Lemma stored_bookings_are_sound_witness :
  1735725600000 < 1735729200000
  ∧ stamps_agree
      (mkBooking 1 "ROOM" 1 "Room A" 1735725600000 1735729200000 None ONGOING
         None None None 0 3 (Some 3) None (Some 1)).
Proof.
  assert (bookings restarted
          = [mkBooking 1 "ROOM" 1 "Room A" 1735725600000 1735729200000 None ONGOING
               None None None 0 3 (Some 3) None (Some 1);
             mkBooking 2 "ROOM" 1 "Room A" 1735725600000 1735729200000 None REQUEST
               None None None 2 2 None None None]) as Hrows
    by (vm_compute; reflexivity).
  apply (stored_bookings_are_sound example_runtime restarted
           (mkBooking 1 "ROOM" 1 "Room A" 1735725600000 1735729200000 None ONGOING
              None None None 0 3 (Some 3) None (Some 1))
           restarted_reachable).
  rewrite Hrows. left.
Defined.

(** Eleven to twelve booked after ten to eleven. *)
Lemma created_booking_is_listed_witness :
  ∃ row rows,
    reply (serve example_runtime None (PostBookings (room_request eleven twelve)) 4 booked_once)
      = Some (respond 201 (BookingRow row))
    ∧ reply (serve example_runtime None GetBookings 5
               (after (serve example_runtime None (PostBookings (room_request eleven twelve)) 4
                         booked_once)))
      = Some (respond 200 (BookingRows rows))
    ∧ rows ≡ₚ row :: bookings booked_once.
Proof.
  destruct (created_booking_is_listed example_runtime None (room_request eleven twelve) 4 5
              booked_once booked_once_reachable)
    as (row & rows & Hreply & _ & Hlist & Hperm & _).
  - vm_compute. reflexivity.
  - exists row, rows. split; [exact Hreply|]. split; [exact Hlist|exact Hperm].
Defined.


(** Booking 1 finished, then canceled. *)
Lemma transitions_accumulate_witness :
  after (serve example_runtime admin (PostBookingCancel (NInt 1)) 6
           (after (serve example_runtime admin (PostBookingFinish (NInt 1)) 5 booked_once)))
    = set_bookings
        (map (rewrite_booking (set_canceled 6 ∘ set_finished 5) 1) (bookings booked_once))
        booked_once.
Proof.
  exact (proj1 (transitions_accumulate example_runtime admin Finish Cancel 1 5 6
                  booked_once admin_authorized)).
Defined.


(** Room B renamed to Room A. *)
Lemma patch_refuses_taken_name_witness :
  reply (serve example_runtime admin (PatchResource (NInt 2) {["name" := JStr "Room A"]}) 5
           two_rooms)
    = Some (respond 409 (Error "Duplicate resource name for this kind"))
  ∧ after (serve example_runtime admin (PatchResource (NInt 2) {["name" := JStr "Room A"]}) 5
             two_rooms) = two_rooms.
Proof.
  assert (resources two_rooms
          = [mkResource 1 "ROOM" "Room A" None None (Some 1) Available None;
             mkResource 2 "ROOM" "Room B" None None (Some 1) Available None]) as Hrows
    by (vm_compute; reflexivity).
  apply (patch_refuses_taken_name example_runtime admin 2 5 {["name" := JStr "Room A"]}
           two_rooms
           (mkResource 2 "ROOM" "Room B" None None (Some 1) Available None)
           (mkResource 1 "ROOM" "Room A" None None (Some 1) Available None)
           admin_authorized).
  - rewrite Hrows. right. left.
  - reflexivity.
  - rewrite Hrows. left.
  - simpl. lia.
  - reflexivity.
  - reflexivity.
  - reflexivity.
  - reflexivity.
Defined.

(** [hard=0&mode=hard] is served as [hard=0]. *)
Lemma hard_parameter_shadows_mode_witness :
  serve example_runtime admin (DeleteResource (NInt 1) (Some "0") (Some "hard")) 2 one_room
    = serve example_runtime admin (DeleteResource (NInt 1) (Some "0") None) 2 one_room.
Proof.
  apply (hard_parameter_shadows_mode example_runtime admin (NInt 1) "0" (Some "hard") 2
           one_room).
  discriminate.
Defined.

(** Two hosts in [ORIGIN_LIST]. *)
Lemma cors_allows_the_listed_origins_witness :
  ALLOWED (Some (join_comma ["https://a.example"; "https://b.example"]))
    = ["https://a.example"; "https://b.example"]
  ∧ cors_origin (Some (join_comma ["https://a.example"; "https://b.example"]))
      (Some "https://b.example") = true.
Proof.
  destruct (cors_allows_the_listed_origins ["https://a.example"; "https://b.example"]
              "https://b.example") as [Hlist Hiff].
  - repeat constructor.
  - discriminate.
  - discriminate.
  - split; [exact Hlist|]. apply Hiff. right. left.
Defined.

(** A wrong password for the administrator. *)
Lemma failed_login_gives_nothing_away_witness :
  login example_bcrypt (credentials "admin" "letmein") None example_users
    = mkAuthOutcome (auth_respond 401 (AuthError "Invalid credentials")) None example_users.
Proof.
  apply (failed_login_gives_nothing_away example_bcrypt "admin" "letmein" None
           example_users).
  - discriminate.
  - discriminate.
  - right. eexists. split; reflexivity.
Defined.

(** The visitor logs in and is turned away by a guarded route. *)
Lemma login_opens_a_session_with_the_stored_role_witness :
  login example_bcrypt (credentials "visitor" "hello123") None example_users
    = mkAuthOutcome
        (auth_respond 200 (AuthUser (mkUser 3 "visitor" "GUEST")))
        (Some (mkUser 3 "visitor" "GUEST")) example_users
  ∧ reply (serve example_runtime
             (session_after (login example_bcrypt (credentials "visitor" "hello123") None
                               example_users))
             (PostResources room_a) 0 empty_db)
    = Some (respond 403 (Error "Forbidden: Insufficient permissions")).
Proof.
  destruct (login_opens_a_session_with_the_stored_role example_runtime example_bcrypt
              "visitor" "hello123" None example_users
              (mkAdminUser 3 "visitor" "hello123" "GUEST" None)
              (PostResources room_a) 0 empty_db)
    as (Hlogin & _ & _ & Hguard).
  - discriminate.
  - discriminate.
  - reflexivity.
  - reflexivity.
  - split; [exact Hlogin|]. apply Hguard; [|reflexivity].
    unfold ADMIN_STAFF. intros Hin.
    repeat (apply elem_of_cons in Hin as [Hin|Hin]; [discriminate Hin|]).
    by apply elem_of_nil in Hin.
Defined.

(** The administrator changes the password. *)
Lemma change_password_touches_one_hash_witness :
  session_after (change_password example_bcrypt (new_password "admin123" "s3cret!")
                   admin "" 9 example_users) = admin
  ∧ map au_role (users_after (change_password example_bcrypt
                                (new_password "admin123" "s3cret!") admin "" 9 example_users))
    = ["ADMIN"; "STAFF"; "GUEST"].
Proof.
  destruct (change_password_touches_one_hash example_bcrypt
              (new_password "admin123" "s3cret!") (mkUser 1 "admin" "ADMIN") "" 9
              example_users)
    as (Hsession & _ & _ & Hroles & _).
  - unfold ADMIN_STAFF. left.
  - split; [exact Hsession|exact Hroles].
Defined.


(** Seeding an empty table, and seeding the accounts of the examples
    twice. *)
Lemma seed_resets_the_admin_password_witness :
  seed example_bcrypt "" 5 1 [] = [mkAdminUser 1 "admin" "admin123" "ADMIN" None]
  ∧ length (seed example_bcrypt "" 7 9 (seed example_bcrypt "" 5 4 example_users))
    = length (seed example_bcrypt "" 5 4 example_users).
Proof.
  split.
  - destruct (seed_resets_the_admin_password example_bcrypt "" "" 5 7 1 9 [] None
                example_bcrypt_accepts_own) as (_ & _ & _ & Hnew & _).
    apply Hnew. intros a Ha. by apply elem_of_nil in Ha.
  - destruct (seed_resets_the_admin_password example_bcrypt "" "" 5 7 4 9 example_users None
                example_bcrypt_accepts_own) as (_ & _ & _ & _ & Hlen).
    exact Hlen.
Defined.
